(** * convertfile.me backend: the [/convert] upload handler

    A shallow embedding of [backend/.py]: the Flask view [convert] and its
    helper [convert_to_jpeg], together with the library calls they make
    ([os.path], the werkzeug upload objects, the filesystem and Pillow).

    The handler is sequential code that mutates the filesystem and may
    raise, so it is embedded in a state-and-exception monad over a [World]
    that holds the files on disk. *)

From Stdlib Require Import ZArith Lia Ascii String List.
From stdpp Require Import gmap strings list fin_maps.

Local Open Scope Z_scope.

(** * Python strings *)

Module Py.

(** [s.rfind(c)] for a one-character [c]: the highest index, or [-1]. *)
Fixpoint rfind (c : ascii) (s : string) : Z :=
  match s with
  | EmptyString => -1
  | String a s' =>
      let r := rfind c s' in
      if 0 <=? r then r + 1 else if Ascii.eqb a c then 0 else -1
  end.

(** [s[:n]] and [s[n:]] for [0 <= n]. *)
Fixpoint take (n : nat) (s : string) : string :=
  match n, s with
  | S n', String a s' => String a (take n' s')
  | _, _ => EmptyString
  end.

Fixpoint drop (n : nat) (s : string) : string :=
  match n, s with
  | S n', String _ s' => drop n' s'
  | _, _ => s
  end.

(** [s[i:i+1]]: the character at [i], or the empty string past the end. *)
Definition at_index (s : string) (i : nat) : string := take 1 (drop i s).

Fixpoint startswith (s prefix : string) {struct prefix} : bool :=
  match prefix, s with
  | EmptyString, _ => true
  | String a prefix', String b s' => Ascii.eqb a b && startswith s' prefix'
  | String _ _, EmptyString => false
  end.

Definition endswith (s suffix : string) : bool :=
  String.eqb (drop (String.length s - String.length suffix) s) suffix
  && (String.length suffix <=? String.length s)%nat.

(** [s.rstrip(c)] for a one-character [c]. *)
Fixpoint rstrip (c : ascii) (s : string) : string :=
  match s with
  | EmptyString => EmptyString
  | String a s' =>
      match rstrip c s' with
      | EmptyString => if Ascii.eqb a c then EmptyString else String a EmptyString
      | t => String a t
      end
  end.

(** [s.split(c)] for a one-character [c]. *)
Fixpoint split (c : ascii) (s : string) : list string :=
  match s with
  | EmptyString => [EmptyString]
  | String a s' =>
      if Ascii.eqb a c then EmptyString :: split c s'
      else match split c s' with
           | t :: ts => String a t :: ts
           | [] => [String a EmptyString]
           end
  end.

(** ['c' * n]. *)
Fixpoint repeat (c : ascii) (n : nat) : string :=
  match n with
  | O => EmptyString
  | S n' => String c (repeat c n')
  end.

(** [c.lower()] on the ASCII letters.  The handler only compares a
    lowered extension with [".png"], and no character outside [A-Z]
    lowers to one of [p], [n], [g] or [.], so the ASCII table decides
    that comparison for every string. *)
Definition lower_char (c : ascii) : ascii :=
  let n := N_of_ascii c in
  if ((65 <=? n) && (n <=? 90))%N then ascii_of_N (n + 32) else c.

Fixpoint lower (s : string) : string :=
  match s with
  | EmptyString => EmptyString
  | String a s' => String (lower_char a) (lower s')
  end.

End Py.

(** * [os.path] (posixpath) *)

Definition sep : ascii := "/"%char.
Definition extsep : ascii := "."%char.

(** [genericpath._splitext], the loop that skips the leading dots of the
    last path component: [n] is the number of iterations left, that is
    [dotIndex - filenameIndex]. *)
Fixpoint splitext_skip_dots (n : nat) (p : string) (filenameIndex dotIndex : nat)
  : option (string * string) :=
  match n with
  | O => None
  | S n' =>
      if negb (String.eqb (Py.at_index p filenameIndex) (String extsep EmptyString))
      then Some (Py.take dotIndex p, Py.drop dotIndex p)
      else splitext_skip_dots n' p (S filenameIndex) dotIndex
  end.

(** [os.path.splitext(p)]. *)
Definition os_path_splitext (p : string) : string * string :=
  let sepIndex := Py.rfind sep p in
  let dotIndex := Py.rfind extsep p in
  if sepIndex <? dotIndex then
    let filenameIndex := sepIndex + 1 in
    match splitext_skip_dots (Z.to_nat (dotIndex - filenameIndex)) p
            (Z.to_nat filenameIndex) (Z.to_nat dotIndex) with
    | Some r => r
    | None => (p, EmptyString)
    end
  else (p, EmptyString).

(** [os.path.join(a, b)]. *)
Definition os_path_join (a b : string) : string :=
  if Py.startswith b (String sep EmptyString) then b
  else if String.eqb a EmptyString || Py.endswith a (String sep EmptyString) then a +:+ b
  else a +:+ String sep b.

(** [os.path.split(p)]: directory part and last component. *)
Definition os_path_split (p : string) : string * string :=
  let i := Z.to_nat (Py.rfind sep p + 1) in
  let head := Py.take i p in
  let tail := Py.drop i p in
  let head' :=
    if negb (String.eqb head EmptyString)
       && negb (String.eqb head (Py.repeat sep (String.length head)))
    then Py.rstrip sep head else head in
  (head', tail).

Definition os_path_dirname (p : string) : string := fst (os_path_split p).
Definition os_path_basename (p : string) : string := snd (os_path_split p).


(** * Data model *)

Abbreviation bytes := (list Byte.byte).

(** A decoded Pillow image: its [mode], its size and one list of band
    values per pixel. *)
Record Image := mkImage {
  mode : string;
  size : nat * nat;
  pixels : list (list N)
}.

Inductive exn :=
| BadRequestKeyError (key : string)
| FileNotFoundError (path : string)
| IsADirectoryError (path : string)
| NotADirectoryError (path : string)
| FileExistsError (path : string)
| ValueError (msg : string)
| UnidentifiedImageError (msg : string)
| OSError (msg : string).

(** The codec entry points the handler reaches through Pillow.  What they
    compute (PNG inflate, JPEG DCT and entropy coding) is Pillow's
    business; the handler is verified for every codec.
    - [identify b]: what [Image.open] finds in the header of file contents
      [b], the mode and the size, or the exception it raises;
    - [load b]: the pixel data Pillow reads from [b] the first time the
      image is used, or the exception that read raises;
    - [encode_jpeg img]: the JPEG stream for an image whose mode the JPEG
      writer accepts, or [None] when the encoder itself gives up. *)
Record Codec := mkCodec {
  identify : bytes -> exn + (string * (nat * nat));
  load : bytes -> exn + list (list N);
  encode_jpeg : Image -> option bytes
}.

(** The image a file decodes to, when both stages succeed. *)
Definition decode (codec : Codec) (data : bytes) : option Image :=
  match identify codec data, load codec data with
  | inr (m, sz), inr px => Some (mkImage m sz px)
  | _, _ => None
  end.

(** A Pillow image object: as [Image.open] returns it, with the header
    read and the pixel data still in the file, or in memory. *)
Inductive PilImage :=
| ImageFile (im_mode : string) (im_size : nat * nat) (data : bytes)
| InMemory (img : Image).

(** [img.mode]. *)
Definition pil_mode (i : PilImage) : string :=
  match i with
  | ImageFile m _ _ => m
  | InMemory img => mode img
  end.

(** werkzeug's [FileStorage]: one uploaded file of a multipart form. *)
Record FileStorage := mkFileStorage {
  filename : string;
  stream : bytes
}.

(** The request, reduced to [request.files]: a multi-dict, in field order. *)
Record Request := mkRequest {
  request_files : list (string * FileStorage)
}.

Inductive Body :=
| JsonBody (fields : list (string * string))
| FileBody (data : bytes).

Record Response := mkResponse {
  status : Z;
  body : Body;
  attachment : option string
}.

(** Calls into Pillow, in the order they were made. *)
Inductive PilCall :=
| Image_open_call (path : string)
| Image_convert_call (from_mode to_mode : string)
| Image_save_call (path : string) (img_mode : string) (format : string).

(** The state the handler runs in: regular files and directories by path,
    and the trace of Pillow calls.  Paths are byte strings on a
    case-sensitive filesystem without links.  A file is kept under the
    path it was written with: two spellings of one path ([a/./b], [a//b],
    [a/x/../b]) are two keys of [files].  A directory is listed in [dirs]
    under its plain path, the one without [.], [..], doubled or trailing
    slashes, which is where [open] looks it up.  Every directory is
    writable and the disk is never full.  Relative paths are relative to
    the working directory, which is also the application root [send_file]
    resolves against. *)
Record World := mkWorld {
  files : gmap string bytes;
  dirs : gset string;
  pil_calls : list PilCall
}.

Definition set_files (f : gmap string bytes -> gmap string bytes) (w : World) : World :=
  mkWorld (f (files w)) (dirs w) (pil_calls w).
Definition set_dirs (f : gset string -> gset string) (w : World) : World :=
  mkWorld (files w) (f (dirs w)) (pil_calls w).
Definition add_call (c : PilCall) (w : World) : World :=
  mkWorld (files w) (dirs w) (pil_calls w ++ [c]).

(** * The state-and-exception monad *)

Inductive outcome (A : Type) :=
| Return (a : A)
| Raise (e : exn).
Arguments Return {A} a.
Arguments Raise {A} e.

Definition M (A : Type) : Type := World -> outcome A * World.

Definition ret {A} (a : A) : M A := fun w => (Return a, w).
Definition raise {A} (e : exn) : M A := fun w => (Raise e, w).
Definition bind {A B} (m : M A) (k : A -> M B) : M B :=
  fun w => match m w with
           | (Return a, w') => k a w'
           | (Raise e, w') => (Raise e, w')
           end.
Definition gets {A} (f : World -> A) : M A := fun w => (Return (f w), w).
Definition modify (f : World -> World) : M unit := fun w => (Return tt, f w).

Declare Scope monad_scope.
Delimit Scope monad_scope with monad.
Notation "x <- c1 ;; c2" := (bind c1 (fun x => c2))
  (at level 100, c1 at next level, right associativity) : monad_scope.
Notation "c1 ;; c2" := (bind c1 (fun _ => c2))
  (at level 100, right associativity) : monad_scope.
Local Open Scope monad_scope.

(** * Filesystem calls *)

(** [os.path.exists(path)]. *)
Definition os_path_exists (w : World) (path : string) : bool :=
  bool_decide (is_Some (files w !! path) ∨ path ∈ dirs w).

(** Limits of the filesystem on a path and on one component, in bytes. *)
Definition PATH_MAX : Z := 4096.
Definition NAME_MAX : Z := 255.

Definition has_nul (path : string) : bool := 0 <=? Py.rfind "000"%char path.

(** Directories as the kernel walks them.  A directory is named by its
    path without [.], [..], doubled or trailing slashes: the empty string
    for the working directory, ["/"] for the root, and [dirs] lists every
    other one under that name. *)
Definition child (cur name : string) : string := os_path_join cur name.

Definition parent (cur : string) : string :=
  if String.eqb cur "" || String.eqb (os_path_basename cur) ".." then child cur ".."
  else os_path_dirname cur.

Inductive lookup :=
| Dir (cur : string)
| NameTooLong
| Missing (prefix : string).

(** The walk from directory [cur] along the components [names]: an
    empty component or [.] stays, [..] goes up, a name is looked up. *)
Fixpoint walk (d : gset string) (cur : string) (names : list string) : lookup :=
  match names with
  | [] => Dir cur
  | name :: names' =>
      if String.eqb name "" || String.eqb name "." then walk d cur names'
      else if String.eqb name ".." then walk d (parent cur) names'
      else if NAME_MAX <? Z.of_nat (String.length name) then NameTooLong
      else if bool_decide (child cur name ∈ d) then walk d (child cur name) names'
      else Missing (child cur name)
  end.

(** The directory the last component of [path] is looked up in, trailing
    slashes apart. *)
Definition walk_parent (d : gset string) (path : string) : lookup :=
  walk d (if Py.startswith path (String sep "") then "/" else "")
       (removelast (Py.split sep (Py.rstrip sep path))).

Definition last_component (path : string) : string :=
  List.last (Py.split sep (Py.rstrip sep path)) "".

(** [path] names a directory, and so cannot be opened for writing. *)
Definition is_directory (w : World) (cur : string) (path : string) : bool :=
  bool_decide (path ∈ dirs w ∨ child cur (last_component path) ∈ dirs w).

(** The exception [open(path, "wb")] raises, if any: Python refuses an
    embedded NUL; the kernel refuses a path that is too long, then walks
    the directories of the path and fails at a name that is too long, at a
    regular file or at a missing directory; what is left is refused when
    it asks for a directory (a trailing slash, [.] or [..]) or names
    one, or is too long a name. *)
Definition open_wb_error (w : World) (path : string) : option exn :=
  if has_nul path then Some (ValueError "embedded null byte")
  else if PATH_MAX <=? Z.of_nat (String.length path)
  then Some (OSError "[Errno 36] File name too long")
  else if String.eqb path "" then Some (FileNotFoundError path)
  else
    match walk_parent (dirs w) path with
    | NameTooLong => Some (OSError "[Errno 36] File name too long")
    | Missing prefix =>
        if bool_decide (is_Some (files w !! prefix)) then Some (NotADirectoryError path)
        else Some (FileNotFoundError path)
    | Dir cur =>
        let name := last_component path in
        if negb (String.eqb (Py.rstrip sep path) path)
           || bool_decide (name ∈ [""; "."; ".."])
        then Some (IsADirectoryError path)
        else if NAME_MAX <? Z.of_nat (String.length name)
        then Some (OSError "[Errno 36] File name too long")
        else if is_directory w cur path then Some (IsADirectoryError path)
        else None
    end.

(** [open(path, "wb")] / [open(path, "w+b")]: creates or truncates. *)
Definition open_wb (path : string) : M unit := fun w =>
  match open_wb_error w path with
  | Some e => (Raise e, w)
  | None => (Return tt, set_files (insert path []) w)
  end.

(** [f.write(data)] on a file just opened by [open_wb], then [f.close()]. *)
Definition file_write (path : string) (data : bytes) : M unit :=
  modify (set_files (insert path data)).

(** [os.remove(path)]. *)
Definition os_remove (path : string) : M unit :=
  modify (set_files (delete path)).

(** [os.makedirs(path, exist_ok=True)] for a one-component [path]. *)
Definition os_makedirs (path : string) : M unit := fun w =>
  if bool_decide (is_Some (files w !! path)) then (Raise (FileExistsError path), w)
  else (Return tt, set_dirs (fun d => {[path]} ∪ d) w).

(** * werkzeug and Flask calls *)

(** [bool(file)] is [bool(file.filename)]. *)
Definition FileStorage_bool (file : FileStorage) : bool :=
  negb (String.eqb (filename file) "").

(** [d.get(key)]: the first value for [key]. *)
Fixpoint MultiDict_get (d : list (string * FileStorage)) (key : string) : option FileStorage :=
  match d with
  | [] => None
  | (k, v) :: d' => if String.eqb k key then Some v else MultiDict_get d' key
  end.

(** [d[key]]: a missing key raises [BadRequestKeyError], a [KeyError]. *)
Definition MultiDict_getitem (d : list (string * FileStorage)) (key : string) : M FileStorage :=
  match MultiDict_get d key with
  | Some v => ret v
  | None => raise (BadRequestKeyError key)
  end.

(** [file.save(dst)]. *)
Definition FileStorage_save (file : FileStorage) (dst : string) : M unit :=
  open_wb dst ;;
  file_write dst (stream file).

(** A view's [return body, status] with a dict body. *)
Definition json_response (fields : list (string * string)) (code : Z) : Response :=
  mkResponse code (JsonBody fields) None.

(** [send_file(path, as_attachment=True)], for a request without
    conditional or range headers. *)
Definition send_file (path : string) : M Response := fun w =>
  match files w !! path with
  | Some data =>
      (Return (mkResponse 200 (FileBody data) (Some (os_path_basename path))), w)
  | None =>
      if bool_decide (path ∈ dirs w) then (Raise (IsADirectoryError path), w)
      else (Raise (FileNotFoundError path), w)
  end.

(** * Pillow calls *)

(** The modes [JpegImagePlugin] can write (its [RAWMODE] table). *)
Definition JPEG_RAWMODE : list string := ["1"; "L"; "RGB"; "RGBX"; "CMYK"; "YCbCr"].

(** [img.convert("RGB")] on an RGBA image: the alpha band is dropped and the
    colour bands are kept as they are. *)
Definition rgba2rgb (img : Image) : Image :=
  mkImage "RGB" (size img) (take 3 <$> pixels img).

Section Handler.

Variable codec : Codec.

(** [Image.open(path)]: reads the header only. *)
Definition Image_open (path : string) : M PilImage :=
  modify (add_call (Image_open_call path)) ;;
  contents <- gets (fun w => files w !! path) ;;
  match contents with
  | None => raise (FileNotFoundError path)
  | Some data =>
      match identify codec data with
      | inr (m, sz) => ret (ImageFile m sz data)
      | inl e => raise e
      end
  end.

(** [img.load()]: reads the pixel data of an image that is still in its
    file; both [convert] and [save] start with it. *)
Definition Image_load (i : PilImage) : M Image :=
  match i with
  | ImageFile m sz data =>
      match load codec data with
      | inr px => ret (mkImage m sz px)
      | inl e => raise e
      end
  | InMemory img => ret img
  end.

(** [img.convert("RGB")], as the handler calls it. *)
Definition Image_convert_RGB (i : PilImage) : M PilImage :=
  modify (add_call (Image_convert_call (pil_mode i) "RGB")) ;;
  img <- Image_load i ;;
  ret (InMemory (rgba2rgb img)).

(** The JPEG save handler: the mode must be in [RAWMODE]. *)
Definition jpeg_save_handler (img : Image) : exn + bytes :=
  if bool_decide (mode img ∈ JPEG_RAWMODE) then
    match encode_jpeg codec img with
    | Some data => inr data
    | None => inl (OSError "encoder error when writing image file")
    end
  else inl (OSError ("cannot write mode " +:+ mode img +:+ " as JPEG")).

(** [img.save(path, "JPEG")]: the pixel data is loaded, then the output is
    opened (created or truncated), then the save handler runs; when the
    handler raises, a file this call created is removed again. *)
Definition Image_save_JPEG (i : PilImage) (path : string) : M unit :=
  modify (add_call (Image_save_call path (pil_mode i) "JPEG")) ;;
  img <- Image_load i ;;
  created <- gets (fun w => negb (os_path_exists w path)) ;;
  open_wb path ;;
  match jpeg_save_handler img with
  | inr data => file_write path data
  | inl e => (if created : bool then os_remove path else ret tt) ;; raise e
  end.

(** * The application *)

Definition UPLOAD_FOLDER : string := "uploads".

(** Line 8, run once when the module is loaded. *)
Definition startup : M unit := os_makedirs UPLOAD_FOLDER.

(** Lines 24-38. *)
Definition convert_to_jpeg (filepath : string) : M string :=
  let '(filename, ext) := os_path_splitext filepath in
  let output_path := filename +:+ ".jpg" in
  (if String.eqb (Py.lower ext) ".png" then
     img <- Image_open filepath ;;
     img <- (if String.eqb (pil_mode img) "RGBA" then Image_convert_RGB img else ret img) ;;
     Image_save_JPEG img output_path
   else ret tt) ;;
  ret output_path.

(** Lines 11-22. *)
Definition convert (request : Request) : M Response :=
  file <- MultiDict_getitem (request_files request) "file" ;;
  if negb (FileStorage_bool file) then
    ret (json_response [("error", "No file uploaded")] 400)
  else
    let filename := filename file in
    let filepath := os_path_join UPLOAD_FOLDER filename in
    FileStorage_save file filepath ;;
    output_file <- convert_to_jpeg filepath ;;
    send_file output_file.

End Handler.

(** * Vocabulary for the statements *)

(** [open_wb] succeeds on [path]. *)
Definition can_open_wb (w : World) (path : string) : bool :=
  match open_wb_error w path with
  | None => true
  | Some _ => false
  end.

(** The exception [open_wb] raises otherwise. *)
Definition open_error (w : World) (path : string) : exn :=
  default (FileNotFoundError path) (open_wb_error w path).

(** The exception and the Pillow calls of lines 30-36 when the upload
    does not decode: the open fails for an unreadable header, the first
    use of the image for unreadable pixel data. *)
Definition decode_error (codec : Codec) (data : bytes) : exn :=
  match identify codec data with
  | inl e => e
  | inr _ => match load codec data with inl e => e | inr _ => OSError "" end
  end.

(** What [img.load()] gives for an image object. *)
Definition pixels_loaded (codec : Codec) (i : PilImage) : exn + Image :=
  match i with
  | ImageFile m sz data =>
      match load codec data with
      | inr px => inr (mkImage m sz px)
      | inl e => inl e
      end
  | InMemory img => inr img
  end.

Definition undecoded_calls (codec : Codec) (filepath output_path : string) (data : bytes)
  : list PilCall :=
  Image_open_call filepath ::
  match identify codec data with
  | inl _ => []
  | inr (m, _) =>
      if String.eqb m "RGBA" then [Image_convert_call "RGBA" "RGB"]
      else [Image_save_call output_path m "JPEG"]
  end.

(** The image lines 33-34 hand to the encoder. *)
Definition encoder_input (img : Image) : Image :=
  if String.eqb (mode img) "RGBA" then rgba2rgb img else img.

(** The Pillow calls of lines 30-36 for a decoded [img]. *)
Definition png_calls (filepath output_path : string) (img : Image) : list PilCall :=
  Image_open_call filepath ::
  (if String.eqb (mode img) "RGBA" then [Image_convert_call "RGBA" "RGB"] else []) ++
  [Image_save_call output_path (mode (encoder_input img)) "JPEG"].

Definition log_calls (cs : list PilCall) (w : World) : World :=
  mkWorld (files w) (dirs w) (pil_calls w ++ cs).

(** What a failed JPEG save leaves at the output path: an existing file
    is left truncated, a new one is removed again. *)
Definition truncate_existing (w : World) (path : string)
  : gmap string bytes -> gmap string bytes :=
  if os_path_exists w path then insert path [] else id.

(** Pillow's modes that carry an alpha band. *)
Definition has_alpha_band (m : string) : bool :=
  bool_decide (m ∈ ["LA"; "La"; "PA"; "RGBA"; "RGBa"]).

(** A file name that is a single path component. *)
Definition plain_name (name : string) : Prop :=
  Py.rfind sep name = -1 ∧ name ∉ [""; "."; ".."].

(** A file name the filesystem takes: no NUL, at most [NAME_MAX] bytes. *)
Definition name_fits (name : string) : Prop :=
  has_nul name = false ∧ Z.of_nat (String.length name) <= NAME_MAX.

(** The last component of a path has a character other than a dot, so
    that a dot after it starts an extension. *)
Fixpoint all_dots (s : string) : bool :=
  match s with
  | EmptyString => true
  | String a s' => Ascii.eqb a extsep && all_dots s'
  end.

Definition has_stem (p : string) : bool :=
  negb (all_dots (Py.drop (Z.to_nat (Py.rfind sep p + 1)) p)).

(** * A stand-in codec and concrete inputs

    Used to run the handler on concrete requests.  The header reader takes
    the PNG signature and the IHDR chunk and reports the mode and size
    Pillow reports for that header; the pixel loader takes the data to be
    readable when the file ends in the IEND chunk, and leaves it out.  The
    encoder writes the two JPEG markers SOI and EOI and nothing between
    them. *)

Module Sample.
Import Byte.

Definition bytes_eqb (a b : bytes) : bool :=
  bool_decide (Byte.to_N <$> a = Byte.to_N <$> b).

Definition png_signature : bytes := [x89; x50; x4e; x47; x0d; x0a; x1a; x0a].
Definition IHDR : bytes := [x49; x48; x44; x52].

Definition be32 (b3 b2 b1 b0 : N) : nat :=
  N.to_nat (((b3 * 256 + b2) * 256 + b1) * 256 + b0).

(** [PngImagePlugin]'s table from (bit depth, colour type) to mode. *)
Definition png_mode (depth ctype : N) : option string :=
  match ctype, depth with
  | 0, 1 => Some "1"
  | 0, 2 | 0, 4 | 0, 8 => Some "L"
  | 0, 16 => Some "I;16"
  | 2, 8 | 2, 16 => Some "RGB"
  | 3, 1 | 3, 2 | 3, 4 | 3, 8 => Some "P"
  | 4, 8 => Some "LA"
  | 4, 16 => Some "RGBA"
  | 6, 8 | 6, 16 => Some "RGBA"
  | _, _ => None
  end%N.

Definition read_header (data : bytes) : option Image :=
  if bytes_eqb (take 8 data) png_signature && bytes_eqb (take 4 (drop 12 data)) IHDR
  then
    match Byte.to_N <$> take 10 (drop 16 data) with
    | [w3; w2; w1; w0; h3; h2; h1; h0; depth; ctype] =>
        m ← png_mode depth ctype;
        Some (mkImage m (be32 w3 w2 w1 w0, be32 h3 h2 h1 h0) [])
    | _ => None
    end
  else None.

Definition read_header_only (data : bytes) : exn + (string * (nat * nat)) :=
  match read_header data with
  | Some img => inr (mode img, size img)
  | None => inl (UnidentifiedImageError "cannot identify image file")
  end.

(** The pixel data is taken to be readable when the file ends in the IEND
    chunk, and is left out. *)
Definition IEND : bytes := [x49; x45; x4e; x44; xae; x42; x60; x82].

Definition skip_pixels (data : bytes) : exn + list (list N) :=
  if bytes_eqb (drop (length data - 8) data) IEND then inr []
  else inl (OSError "image file is truncated").

Definition markers_only (img : Image) : option bytes := Some [xff; xd8; xff; xd9].

Definition codec : Codec := mkCodec read_header_only skip_pixels markers_only.

(** Four 1x1 PNG files: truecolour with alpha, truecolour, greyscale with
    alpha, and palette. *)
Definition rgba_png : bytes :=
  [x89; x50; x4e; x47; x0d; x0a; x1a; x0a; x00; x00; x00; x0d; x49; x48; x44; x52;
   x00; x00; x00; x01; x00; x00; x00; x01; x08; x06; x00; x00; x00; x1f; x15; xc4;
   x89; x00; x00; x00; x0d; x49; x44; x41; x54; x78; xda; x63; x38; x91; x62; xd4;
   x00; x00; x05; x35; x01; xdf; xac; x3c; xf1; xcb; x00; x00; x00; x00; x49; x45;
   x4e; x44; xae; x42; x60; x82].
Definition rgb_png : bytes :=
  [x89; x50; x4e; x47; x0d; x0a; x1a; x0a; x00; x00; x00; x0d; x49; x48; x44; x52;
   x00; x00; x00; x01; x00; x00; x00; x01; x08; x02; x00; x00; x00; x90; x77; x53;
   xde; x00; x00; x00; x0c; x49; x44; x41; x54; x78; xda; x63; x38; x91; x62; x04;
   x00; x03; x56; x01; x5f; xd6; xea; x57; xfe; x00; x00; x00; x00; x49; x45; x4e;
   x44; xae; x42; x60; x82].
Definition la_png : bytes :=
  [x89; x50; x4e; x47; x0d; x0a; x1a; x0a; x00; x00; x00; x0d; x49; x48; x44; x52;
   x00; x00; x00; x01; x00; x00; x00; x01; x08; x04; x00; x00; x00; xb5; x1c; x0c;
   x02; x00; x00; x00; x0b; x49; x44; x41; x54; x78; xda; x63; x88; x6a; x00; x00;
   x01; x37; x00; xdb; x22; x94; x3d; xfd; x00; x00; x00; x00; x49; x45; x4e; x44;
   xae; x42; x60; x82].
Definition p_png : bytes :=
  [x89; x50; x4e; x47; x0d; x0a; x1a; x0a; x00; x00; x00; x0d; x49; x48; x44; x52;
   x00; x00; x00; x01; x00; x00; x00; x01; x08; x03; x00; x00; x00; x28; xcb; x34;
   xbb; x00; x00; x00; x03; x50; x4c; x54; x45; xc8; x64; x32; xf1; x80; x05; x01;
   x00; x00; x00; x0a; x49; x44; x41; x54; x78; xda; x63; x60; x00; x00; x00; x02;
   x00; x01; xe5; x27; xde; xfc; x00; x00; x00; x00; x49; x45; x4e; x44; xae; x42;
   x60; x82].

(** An empty disk, and the disk once the module has been loaded. *)
Definition blank : World := mkWorld ∅ ∅ [].
Definition started : World := snd (startup blank).

Definition upload (name : string) (data : bytes) : Request :=
  mkRequest [("file", mkFileStorage name data)].

Definition with_file (path : string) (data : bytes) (w : World) : World :=
  set_files (insert path data) w.

(** File contents that are not a PNG. *)
Definition soi_eoi : bytes := [xff; xd8; xff; xd9].

Definition with_dir (path : string) (w : World) : World :=
  set_dirs (fun d => {[path]} ∪ d) w.

End Sample.

(** * Checks on concrete inputs *)

Example splitext_png : os_path_splitext "uploads/photo.png" = ("uploads/photo", ".png").
Proof. reflexivity. Qed.
Example splitext_two_dots : os_path_splitext "a.tar.gz" = ("a.tar", ".gz").
Proof. reflexivity. Qed.
Example splitext_hidden : os_path_splitext "uploads/.png" = ("uploads/.png", "").
Proof. reflexivity. Qed.
Example splitext_dots : os_path_splitext "uploads/...png" = ("uploads/...png", "").
Proof. reflexivity. Qed.
Example splitext_dot_in_dir : os_path_splitext "a.b/c" = ("a.b/c", "").
Proof. reflexivity. Qed.
Example join_rel : os_path_join "uploads" "a/b.png" = "uploads/a/b.png".
Proof. reflexivity. Qed.
Example join_abs : os_path_join "uploads" "/etc/x.png" = "/etc/x.png".
Proof. reflexivity. Qed.
Example split_plain : os_path_split "uploads/a.png" = ("uploads", "a.png").
Proof. reflexivity. Qed.
Example split_root : os_path_split "/a.png" = ("/", "a.png").
Proof. reflexivity. Qed.
Example split_slashes : os_path_split "uploads//a" = ("uploads", "a").
Proof. reflexivity. Qed.
Example lower_PNG : Py.lower ".PnG" = ".png".
Proof. reflexivity. Qed.

Example sample_rgba : mode <$> Sample.read_header Sample.rgba_png = Some "RGBA".
Proof. reflexivity. Qed.
Example sample_rgb : mode <$> Sample.read_header Sample.rgb_png = Some "RGB".
Proof. reflexivity. Qed.
Example sample_la : mode <$> Sample.read_header Sample.la_png = Some "LA".
Proof. reflexivity. Qed.
Example sample_p : Sample.read_header Sample.p_png = Some (mkImage "P" (1%nat, 1%nat) []).
Proof. reflexivity. Qed.
Example sample_started : dirs Sample.started = {[ "uploads" ]}.
Proof. vm_compute. reflexivity. Qed.

(** [open(path, "wb")] once [uploads] exists, on paths a client can make
    the handler open. *)
Example open_plain : open_wb_error Sample.started "uploads/a.png" = None.
Proof. reflexivity. Qed.
Example open_traversal : open_wb_error Sample.started "uploads/../x.png" = None.
Proof. reflexivity. Qed.
Example open_dot_and_doubled_slash :
  open_wb_error Sample.started "uploads/.//y" = None.
Proof. reflexivity. Qed.
Example open_missing_directory :
  open_wb_error Sample.started "uploads/sub/a.png" =
    Some (FileNotFoundError "uploads/sub/a.png").
Proof. reflexivity. Qed.
Example open_missing_then_up :
  open_wb_error Sample.started "uploads/nodir/../x" =
    Some (FileNotFoundError "uploads/nodir/../x").
Proof. reflexivity. Qed.
Example open_trailing_slash :
  open_wb_error Sample.started "uploads/x/" = Some (IsADirectoryError "uploads/x/").
Proof. reflexivity. Qed.
Example open_directory :
  open_wb_error Sample.started "uploads" = Some (IsADirectoryError "uploads").
Proof. reflexivity. Qed.
Example open_under_a_file :
  open_wb_error (Sample.with_file "uploads/a.png" [] Sample.started) "uploads/a.png/b.png" =
    Some (NotADirectoryError "uploads/a.png/b.png").
Proof. reflexivity. Qed.
Example open_name_too_long :
  open_wb_error Sample.started ("uploads/" +:+ Py.repeat "a" 256) =
    Some (OSError "[Errno 36] File name too long").
Proof. vm_compute. reflexivity. Qed.
Example open_longest_name :
  open_wb_error Sample.started ("uploads/" +:+ Py.repeat "a" 255) = None.
Proof. vm_compute. reflexivity. Qed.
Example open_embedded_nul :
  open_wb_error Sample.started (String "000" "a.png") =
    Some (ValueError "embedded null byte").
Proof. reflexivity. Qed.

(** * Facts about Python strings and [os.path] *)

Section StringFacts.

Implicit Types (s t p : string) (c : ascii) (n i d : nat).

Lemma app_cons a s t : String a s +:+ t = String a (s +:+ t).
Proof. reflexivity. Qed.

Lemma app_empty_l s : "" +:+ s = s.
Proof. reflexivity. Qed.

Lemma app_empty_r s : s +:+ "" = s.
Proof. induction s as [|a s IH]; [done | by rewrite app_cons, IH]. Qed.

Lemma app_assoc s t u : (s +:+ t) +:+ u = s +:+ (t +:+ u).
Proof. induction s as [|a s IH]; [done | by rewrite !app_cons, IH]. Qed.

Lemma length_app s t :
  String.length (s +:+ t) = (String.length s + String.length t)%nat.
Proof. induction s as [|a s IH]; [done | by rewrite app_cons; simpl; rewrite IH]. Qed.

Lemma take_drop n s : Py.take n s +:+ Py.drop n s = s.
Proof.
  revert s. induction n as [|n IH]; intros [|a s]; simpl; try done.
  by rewrite app_cons, IH.
Qed.

Lemma take_app_length s t n :
  Py.take (String.length s + n) (s +:+ t) = s +:+ Py.take n t.
Proof. induction s as [|a s IH]; [done | by rewrite !app_cons; simpl; rewrite IH]. Qed.

Lemma drop_app_length s t n :
  Py.drop (String.length s + n) (s +:+ t) = Py.drop n t.
Proof. induction s as [|a s IH]; [done | by rewrite !app_cons; simpl; rewrite IH]. Qed.

Lemma drop_app_le n s t :
  (n <= String.length s)%nat → Py.drop n (s +:+ t) = Py.drop n s +:+ t.
Proof.
  revert s. induction n as [|n IH]; intros [|a s] Hn; simpl in *; try done; try lia.
  apply IH. lia.
Qed.

Lemma length_drop n s : String.length (Py.drop n s) = (String.length s - n)%nat.
Proof.
  revert s. induction n as [|n IH]; intros [|a s]; simpl; try done; try lia.
Qed.

Lemma take_all s : Py.take (String.length s) s = s.
Proof. induction s as [|a s IH]; simpl; [done | by rewrite IH]. Qed.

Lemma at_index_app s t i :
  Py.at_index (s +:+ t) (String.length s + i) = Py.at_index t i.
Proof. unfold Py.at_index. by rewrite drop_app_length. Qed.

Lemma rfind_bounds c s : -1 <= Py.rfind c s < Z.of_nat (String.length s).
Proof.
  induction s as [|a s IH]; simpl; [lia|].
  destruct (0 <=? Py.rfind c s) eqn:E; [lia|].
  destruct (Ascii.eqb a c); lia.
Qed.

Lemma rfind_app c s t :
  Py.rfind c (s +:+ t) =
    (if 0 <=? Py.rfind c t then Z.of_nat (String.length s) + Py.rfind c t
     else Py.rfind c s).
Proof.
  induction s as [|a s IH].
  - rewrite app_empty_l. simpl. destruct (0 <=? Py.rfind c t) eqn:E; [lia|].
    pose proof (rfind_bounds c t). lia.
  - rewrite app_cons. simpl. rewrite IH. pose proof (rfind_bounds c t).
    destruct (0 <=? Py.rfind c t) eqn:E.
    + assert ((0 <=? (Z.of_nat (String.length s) + Py.rfind c t)) = true) as -> by lia. lia.
    + done.
Qed.

(** What [os.path.splitext] returns always concatenates back to its
    argument. *)
Lemma splitext_skip_dots_concat n p i d r e :
  splitext_skip_dots n p i d = Some (r, e) → r +:+ e = p.
Proof.
  revert i. induction n as [|n IH]; intros i; simpl; [done|].
  destruct (negb _); [|by apply IH].
  intros [= <- <-]. apply take_drop.
Qed.

Lemma splitext_concat p :
  fst (os_path_splitext p) +:+ snd (os_path_splitext p) = p.
Proof.
  unfold os_path_splitext.
  destruct (_ <? _); simpl; [|apply app_empty_r].
  destruct (splitext_skip_dots _ _ _ _) as [[r e]|] eqn:E; simpl.
  - by eapply splitext_skip_dots_concat.
  - apply app_empty_r.
Qed.

(** [os.path.splitext] only looks at the last path component: a
    directory prefix is carried over to the root unchanged. *)
Lemma splitext_skip_dots_app q f n i d :
  splitext_skip_dots n (q +:+ f) (String.length q + i) (String.length q + d) =
    (λ re, (q +:+ re.1, re.2)) <$> splitext_skip_dots n f i d.
Proof.
  revert i. induction n as [|n IH]; intros i; simpl; [done|].
  rewrite at_index_app.
  destruct (negb _).
  - simpl. by rewrite take_app_length, drop_app_length.
  - rewrite <- IH. f_equal. lia.
Qed.

Lemma splitext_under_dir q f :
  Py.rfind sep q = Z.of_nat (String.length q) - 1 →
  os_path_splitext (q +:+ f) =
    (q +:+ fst (os_path_splitext f), snd (os_path_splitext f)).
Proof.
  intros Hq. unfold os_path_splitext. rewrite !rfind_app, Hq.
  pose proof (rfind_bounds sep f) as Hs. pose proof (rfind_bounds extsep f) as Hd.
  pose proof (rfind_bounds extsep q) as Hdq.
  set (s := Py.rfind sep f) in *. set (d := Py.rfind extsep f) in *.
  set (L := Z.of_nat (String.length q)) in *.
  assert ((if 0 <=? s then L + s else L - 1) = L + s) as ->.
  { destruct (0 <=? s) eqn:E; lia. }
  destruct (0 <=? d) eqn:Ed.
  - assert ((L + s <? L + d) = (s <? d)) as -> by lia.
    destruct (s <? d) eqn:Esd; [|done].
    replace (L + d - (L + s + 1)) with (d - (s + 1)) by lia.
    replace (Z.to_nat (L + s + 1)) with (String.length q + Z.to_nat (s + 1))%nat by lia.
    replace (Z.to_nat (L + d)) with (String.length q + Z.to_nat d)%nat by lia.
    rewrite splitext_skip_dots_app.
    by destruct (splitext_skip_dots _ f _ _) as [[r e]|].
  - assert ((L + s <? Py.rfind extsep q) = false) as -> by lia.
    assert ((s <? d) = false) as -> by lia.
    done.
Qed.

Lemma startswith_sep s :
  Py.startswith s "/" = true ↔ ∃ s', s = String "/" s'.
Proof.
  destruct s as [|a s]; cbn [Py.startswith].
  - split; [done | by intros [? ?]].
  - split.
    + intros [<-%Ascii.eqb_eq _]%andb_true_iff. by eexists.
    + intros [? [= <- _]]. by rewrite Ascii.eqb_refl.
Qed.

Lemma splitext_root_prefix p :
  ∃ n, fst (os_path_splitext p) = Py.take n p ∧
       (fst (os_path_splitext p) = p ∨ Py.rfind sep p < Z.of_nat n).
Proof.
  unfold os_path_splitext.
  destruct (_ <? _) eqn:Elt; [|exists (String.length p); rewrite take_all; auto].
  destruct (splitext_skip_dots _ _ _ _) as [[r e]|] eqn:E;
    [|exists (String.length p); rewrite take_all; auto].
  exists (Z.to_nat (Py.rfind extsep p)). simpl.
  assert (r = Py.take (Z.to_nat (Py.rfind extsep p)) p) as ->.
  { revert E. generalize (Z.to_nat (Py.rfind sep p + 1)).
    induction (Z.to_nat (_ - _)) as [|n IH]; intros i; simpl; [done|].
    destruct (negb _); [by intros [= <- _] | apply IH]. }
  split; [done|]. right. pose proof (rfind_bounds sep p). lia.
Qed.

Lemma splitext_join_uploads name :
  os_path_splitext (os_path_join "uploads" name) =
    (os_path_join "uploads" (fst (os_path_splitext name)), snd (os_path_splitext name)).
Proof.
  unfold os_path_join.
  change (String.eqb "uploads" "" || Py.endswith "uploads" (String sep "")) with false.
  cbv iota.
  destruct (Py.startswith name (String sep "")) eqn:Habs.
  - (* an absolute name replaces the upload directory *)
    apply startswith_sep in Habs as [name' ->].
    assert (Py.startswith (fst (os_path_splitext (String "/" name'))) (String sep "") = true)
      as ->; [|by destruct (os_path_splitext _)].
    destruct (splitext_root_prefix (String "/" name')) as (n & -> & [Hall|Hn]).
    + rewrite Hall. done.
    + assert (0 <= Py.rfind sep (String "/" name')).
      { pose proof (rfind_bounds sep name'). simpl.
        destruct (0 <=? Py.rfind sep name'); lia. }
      destruct n; [lia|done].
  - change ("uploads" +:+ String sep name) with ("uploads/" +:+ name).
    rewrite splitext_under_dir by done.
    assert (Py.startswith (fst (os_path_splitext name)) (String sep "") = false) as ->; [|done].
    destruct (Py.startswith (os_path_splitext name).1 (String sep "")) eqn:Hr; [|done].
    apply startswith_sep in Hr as [r Hr].
    pose proof (splitext_concat name) as Hc. rewrite Hr, app_cons in Hc.
    rewrite <- Hc in Habs. done.
Qed.

(** The skipping loop finds an extension exactly when the characters it
    scans are not all dots. *)
Lemma drop_cons i p :
  (i < String.length p)%nat → ∃ a, Py.drop i p = String a (Py.drop (S i) p).
Proof.
  revert p. induction i as [|i IH]; intros [|a p] Hi; simpl in *; try lia.
  - by exists a.
  - apply IH. lia.
Qed.

Lemma splitext_skip_dots_spec n p i d :
  (i + n <= String.length p)%nat →
  splitext_skip_dots n p i d =
    if all_dots (Py.take n (Py.drop i p)) then None
    else Some (Py.take d p, Py.drop d p).
Proof.
  revert i. induction n as [|n IH]; intros i Hlen; [done|].
  destruct (drop_cons i p) as [a Ha]; [lia|].
  cbn [splitext_skip_dots]. unfold Py.at_index. rewrite Ha.
  cbn [Py.take all_dots]. rewrite IH by lia.
  change (String.eqb (String a "") (String extsep "")) with
    (if Ascii.eqb a extsep then true else false).
  by destruct (Ascii.eqb a extsep).
Qed.

Lemma take_app_exact s t : Py.take (String.length s) (s +:+ t) = s.
Proof.
  rewrite <- (Nat.add_0_r (String.length s)), take_app_length.
  simpl. destruct t; apply app_empty_r.
Qed.

Lemma drop_app_exact s t : Py.drop (String.length s) (s +:+ t) = t.
Proof. by rewrite <- (Nat.add_0_r (String.length s)), drop_app_length. Qed.

(** A name with a stem, followed by a dot and dot-free, slash-free
    characters, splits at that dot. *)
Lemma splitext_stem_ext X e :
  has_stem X = true →
  Py.rfind extsep e = 0 →
  Py.rfind sep e = -1 →
  os_path_splitext (X +:+ e) = (X, e).
Proof.
  unfold has_stem. intros Hstem%negb_true_iff Hdot Hsep.
  unfold os_path_splitext. rewrite !rfind_app, Hdot, Hsep.
  change (0 <=? 0) with true. change (0 <=? -1) with false. cbv iota.
  pose proof (rfind_bounds sep X) as Hs.
  set (s := Py.rfind sep X) in *.
  assert ((s <? Z.of_nat (String.length X) + 0) = true) as -> by lia.
  rewrite splitext_skip_dots_spec; cycle 1.
  { rewrite length_app. lia. }
  rewrite drop_app_le by lia.
  replace (Z.to_nat (Z.of_nat (String.length X) + 0 - (s + 1)))
    with (String.length (Py.drop (Z.to_nat (s + 1)) X)) by (rewrite length_drop; lia).
  rewrite take_app_exact, Hstem.
  replace (Z.to_nat (Z.of_nat (String.length X) + 0)) with (String.length X) by lia.
  by rewrite take_app_exact, drop_app_exact.
Qed.

Lemma has_stem_nonempty X : has_stem X = true → X ≠ "".
Proof. unfold has_stem. by destruct X. Qed.

Lemma no_sep_not_absolute name :
  Py.rfind sep name = -1 → Py.startswith name (String sep "") = false.
Proof.
  intros Hsep. destruct (Py.startswith name (String sep "")) eqn:Habs; [|done].
  apply startswith_sep in Habs as [name' ->]. simpl in Hsep.
  pose proof (rfind_bounds sep name').
  destruct (0 <=? Py.rfind sep name'); lia.
Qed.

(** Joining the upload directory and a single-component name. *)
Lemma join_uploads_plain name :
  Py.rfind sep name = -1 →
  os_path_join "uploads" name = "uploads/" +:+ name.
Proof. intros Hsep. unfold os_path_join. by rewrite no_sep_not_absolute. Qed.

Lemma split_uploads_plain name :
  Py.rfind sep name = -1 →
  os_path_split ("uploads/" +:+ name) = ("uploads", name).
Proof.
  intros Hsep. unfold os_path_split. rewrite rfind_app, Hsep.
  change (Z.to_nat _) with (String.length "uploads/" + 0)%nat.
  rewrite take_app_length, drop_app_length. reflexivity.
Qed.

(** A name without a slash is one component, and stripping trailing
    slashes leaves a path that ends in such a name as it is. *)
Lemma split_no_sep name : Py.rfind sep name = -1 → Py.split sep name = [name].
Proof.
  induction name as [|a name IH]; [done|]. cbn [Py.split Py.rfind].
  pose proof (rfind_bounds sep name) as Hb.
  destruct (0 <=? Py.rfind sep name) eqn:E; [lia|].
  destruct (Ascii.eqb a sep); [done|]. intros _.
  rewrite IH by lia. done.
Qed.

Lemma rstrip_no_sep name :
  Py.rfind sep name = -1 → name ≠ "" → Py.rstrip sep name = name.
Proof.
  induction name as [|a name IH]; [done|]. cbn [Py.rstrip Py.rfind].
  pose proof (rfind_bounds sep name) as Hb.
  destruct (0 <=? Py.rfind sep name) eqn:E; [lia|].
  destruct (Ascii.eqb a sep) eqn:Ha; [done|]. intros _ _.
  destruct name as [|b name]; [done|].
  rewrite IH by (done || lia). done.
Qed.

Lemma rstrip_app p t :
  Py.rstrip sep t ≠ "" → Py.rstrip sep (p +:+ t) = p +:+ Py.rstrip sep t.
Proof.
  intros Ht. induction p as [|a p IH]; [by rewrite !app_empty_l|].
  rewrite !app_cons. cbn [Py.rstrip]. rewrite IH.
  destruct (p +:+ Py.rstrip sep t) eqn:E; [|done].
  destruct p; [|by rewrite app_cons in E].
  by rewrite app_empty_l in E.
Qed.

Lemma split_uploads_components name :
  Py.rfind sep name = -1 → Py.split sep ("uploads/" +:+ name) = ["uploads"; name].
Proof.
  intros Hsep.
  change ("uploads/" +:+ name) with
    (String "u" (String "p" (String "l" (String "o" (String "a" (String "d"
       (String "s" (String "/" name)))))))).
  cbn [Py.split]. rewrite (split_no_sep name Hsep). reflexivity.
Qed.

(** Joining the upload directory with a name commutes with appending to
    the name. *)
Lemma join_uploads_app X e :
  X ≠ "" → os_path_join "uploads" (X +:+ e) = os_path_join "uploads" X +:+ e.
Proof.
  intros HX. unfold os_path_join.
  change (String.eqb "uploads" "" || Py.endswith "uploads" (String sep "")) with false.
  cbv iota. destruct X as [|a X]; [done|]. rewrite app_cons.
  cbn [Py.startswith]. destruct (Ascii.eqb _ _ && true).
  - by rewrite app_cons.
  - by rewrite app_assoc, !app_cons.
Qed.

End StringFacts.

(** * The handler, step by step *)

Section HandlerFacts.

Variable codec : Codec.

Implicit Types (w : World) (file : FileStorage) (request : Request).

(** The missing-field path: the subscript raises before the guard. *)
Lemma convert_no_field request w :
  MultiDict_get (request_files request) "file" = None →
  convert codec request w = (Raise (BadRequestKeyError "file"), w).
Proof.
  intros Hget. unfold convert, bind, MultiDict_getitem. by rewrite Hget.
Qed.

(** The guard of line 13. *)
Lemma convert_falsy_file request file w :
  MultiDict_get (request_files request) "file" = Some file →
  filename file = "" →
  convert codec request w =
    (Return (mkResponse 400 (JsonBody [("error", "No file uploaded")]) None), w).
Proof.
  intros Hget Hname. unfold convert, bind, MultiDict_getitem.
  rewrite Hget. unfold ret, FileStorage_bool. by rewrite Hname.
Qed.

(** The branch of line 29 not taken. *)
Lemma convert_to_jpeg_skip filepath w :
  Py.lower (snd (os_path_splitext filepath)) ≠ ".png" →
  convert_to_jpeg codec filepath w =
    (Return (fst (os_path_splitext filepath) +:+ ".jpg"), w).
Proof.
  intros Hext. unfold convert_to_jpeg.
  destruct (os_path_splitext filepath) as [root ext]; simpl in *.
  destruct (String.eqb_spec (Py.lower ext) ".png") as [?|_]; [done|].
  reflexivity.
Qed.

(** Whatever branch is taken, a result is the computed output path. *)
Lemma convert_to_jpeg_returns filepath w output_path w' :
  convert_to_jpeg codec filepath w = (Return output_path, w') →
  output_path = fst (os_path_splitext filepath) +:+ ".jpg".
Proof.
  unfold convert_to_jpeg.
  destruct (os_path_splitext filepath) as [root ext]; simpl.
  unfold bind at 1.
  destruct (_ w) as [[[]|e] w1]; unfold ret; [|done].
  by intros [= <- _].
Qed.

(** ** Opening for writing *)

(** Whether [open_wb] succeeds depends on the directories only. *)
Lemma can_open_wb_dirs w v path :
  dirs w = dirs v → can_open_wb w path = can_open_wb v path.
Proof.
  unfold can_open_wb, open_wb_error, is_directory. intros ->.
  destruct (has_nul path); [done|].
  destruct (PATH_MAX <=? _); [done|].
  destruct (String.eqb path ""); [done|].
  destruct (walk_parent (dirs v) path); [done|done|].
  by do 2 case_bool_decide.
Qed.

Lemma open_error_same_disk w v path :
  files w = files v → dirs w = dirs v → open_error w path = open_error v path.
Proof.
  unfold open_error, open_wb_error, is_directory.
  by intros -> ->.
Qed.

(** What a successful [open_wb] tells about the path. *)
Lemma can_open_wb_inv w path :
  can_open_wb w path = true →
  has_nul path = false ∧
  Z.of_nat (String.length path) < PATH_MAX ∧
  (path ∉ dirs w) ∧
  Z.of_nat (String.length (last_component path)) <= NAME_MAX.
Proof.
  unfold can_open_wb, open_wb_error.
  destruct (has_nul path); [done|].
  destruct (PATH_MAX <=? _) eqn:Hlen; [done|].
  destruct (String.eqb path ""); [done|].
  destruct (walk_parent (dirs w) path) as [cur| |prefix]; [|done|by case_bool_decide].
  cbv zeta. destruct (negb _ || _); [done|].
  destruct (NAME_MAX <? _) eqn:Hname; [done|].
  destruct (is_directory w cur path) eqn:Hdir; [done|]. intros _.
  apply bool_decide_eq_false in Hdir.
  repeat split; [lia|tauto|lia].
Qed.

Lemma open_wb_ok w path :
  can_open_wb w path = true →
  open_wb path w = (Return tt, set_files (insert path []) w).
Proof.
  unfold can_open_wb, open_wb. by destruct (open_wb_error w path).
Qed.

Lemma open_wb_fails w path :
  can_open_wb w path = false →
  open_wb path w = (Raise (open_error w path), w).
Proof.
  unfold can_open_wb, open_wb, open_error. by destruct (open_wb_error w path).
Qed.

Lemma set_files_set_files f g w :
  set_files f (set_files g w) = set_files (f ∘ g) w.
Proof. reflexivity. Qed.

Lemma FileStorage_save_ok file dst w :
  can_open_wb w dst = true →
  FileStorage_save file dst w = (Return tt, set_files (insert dst (stream file)) w).
Proof.
  intros Hok. unfold FileStorage_save, bind. rewrite (open_wb_ok _ _ Hok).
  unfold file_write, modify, set_files; simpl. by rewrite insert_insert_eq.
Qed.

Lemma FileStorage_save_fails file dst w :
  can_open_wb w dst = false →
  FileStorage_save file dst w = (Raise (open_error w dst), w).
Proof.
  intros Hno. unfold FileStorage_save, bind. by rewrite (open_wb_fails _ _ Hno).
Qed.

(** ** Pillow *)

Lemma os_path_exists_not_dir w path :
  can_open_wb w path = true →
  os_path_exists w path = bool_decide (is_Some (files w !! path)).
Proof.
  intros (_ & _ & Hd & _)%can_open_wb_inv.
  unfold os_path_exists. apply bool_decide_ext. tauto.
Qed.

Lemma Image_load_run i w :
  Image_load codec i w =
    (match pixels_loaded codec i with inl e => Raise e | inr img => Return img end, w).
Proof.
  destruct i as [m sz data|img]; simpl; [|done].
  by destruct (load codec data).
Qed.

Lemma Image_save_JPEG_run i path w :
  Image_save_JPEG codec i path w =
    let w1 := add_call (Image_save_call path (pil_mode i) "JPEG") w in
    match pixels_loaded codec i with
    | inl e => (Raise e, w1)
    | inr img =>
        if can_open_wb w path then
          match jpeg_save_handler codec img with
          | inr data => (Return tt, set_files (insert path data) w1)
          | inl e => (Raise e, set_files (truncate_existing w path) w1)
          end
        else (Raise (open_error w path), w1)
    end.
Proof.
  unfold Image_save_JPEG. unfold bind at 1. unfold modify at 1.
  unfold bind at 1. rewrite Image_load_run. cbv zeta.
  set (w1 := add_call _ w).
  destruct (pixels_loaded codec i) as [e|img]; [done|].
  unfold bind, gets. simpl.
  assert (dirs w1 = dirs w) as Hd by done.
  rewrite <- (can_open_wb_dirs w1 w path Hd).
  rewrite <- (open_error_same_disk w1 w path eq_refl Hd).
  destruct (can_open_wb w1 path) eqn:Hok.
  - rewrite (open_wb_ok _ _ Hok).
    destruct (jpeg_save_handler codec img) as [e|data].
    + unfold truncate_existing.
      rewrite (can_open_wb_dirs w1 w path Hd) in Hok.
      assert (os_path_exists w1 path = os_path_exists w path) as -> by done.
      rewrite (os_path_exists_not_dir _ _ Hok).
      case_bool_decide as Hex; simpl.
      * reflexivity.
      * unfold os_remove, modify, raise, set_files; simpl.
        rewrite delete_insert_eq, delete_id; [done|].
        by apply eq_None_not_Some.
    + unfold file_write, modify, set_files; simpl. by rewrite insert_insert_eq.
  - by rewrite (open_wb_fails _ _ Hok).
Qed.

Lemma convert_to_jpeg_png filepath data w :
  Py.lower (snd (os_path_splitext filepath)) = ".png" →
  files w !! filepath = Some data →
  convert_to_jpeg codec filepath w =
    let output_path := fst (os_path_splitext filepath) +:+ ".jpg" in
    match decode codec data with
    | None =>
        (Raise (decode_error codec data),
         log_calls (undecoded_calls codec filepath output_path data) w)
    | Some img =>
        let w1 := log_calls (png_calls filepath output_path img) w in
        if can_open_wb w output_path then
          match jpeg_save_handler codec (encoder_input img) with
          | inr jpeg => (Return output_path, set_files (insert output_path jpeg) w1)
          | inl e => (Raise e, set_files (truncate_existing w output_path) w1)
          end
        else (Raise (open_error w output_path), w1)
    end.
Proof.
  intros Hext Hfile. unfold convert_to_jpeg.
  destruct (os_path_splitext filepath) as [root ext]; simpl in *.
  rewrite Hext. simpl.
  unfold bind at 1. unfold bind at 1.
  unfold Image_open, bind, modify, gets; simpl. rewrite Hfile.
  unfold decode, decode_error, undecoded_calls.
  destruct (identify codec data) as [e|[m sz]]; [done|].
  unfold ret at 1. cbn [pil_mode].
  destruct (String.eqb_spec m "RGBA") as [Hm|Hm].
  - subst m.
    unfold Image_convert_RGB. unfold bind at 1. unfold modify at 1.
    unfold bind at 1. rewrite Image_load_run. cbn [pil_mode pixels_loaded].
    destruct (load codec data) as [e|px].
    { unfold log_calls, add_call. simpl. by rewrite <- !(assoc_L (++)). }
    unfold ret at 1. rewrite Image_save_JPEG_run. cbn [pixels_loaded pil_mode]. cbv zeta.
    set (img := mkImage "RGBA" sz px).
    set (wa := add_call _ (add_call _ w)).
    assert (dirs wa = dirs w) as Hd by done.
    rewrite (can_open_wb_dirs wa w _ Hd), (open_error_same_disk wa w _ eq_refl Hd).
    assert (truncate_existing wa (root +:+ ".jpg") = truncate_existing w (root +:+ ".jpg"))
      as -> by done.
    unfold png_calls, encoder_input. simpl.
    unfold log_calls, add_call, set_files; subst wa; simpl.
    rewrite <- !(assoc_L (++)). simpl.
    destruct (can_open_wb w _); [|done].
    by destruct (jpeg_save_handler _ _).
  - unfold ret at 1. rewrite Image_save_JPEG_run. cbn [pixels_loaded pil_mode]. cbv zeta.
    destruct (load codec data) as [e|px].
    { unfold log_calls, add_call. simpl. by rewrite <- !(assoc_L (++)). }
    set (img := mkImage m sz px).
    set (wa := add_call _ w).
    assert (dirs wa = dirs w) as Hd by done.
    rewrite (can_open_wb_dirs wa w _ Hd), (open_error_same_disk wa w _ eq_refl Hd).
    assert (truncate_existing wa (root +:+ ".jpg") = truncate_existing w (root +:+ ".jpg"))
      as -> by done.
    assert (String.eqb m "RGBA" = false) as Hneq by by apply String.eqb_neq.
    unfold png_calls, encoder_input. simpl. rewrite Hneq. simpl.
    unfold log_calls, add_call, set_files; subst wa; simpl.
    rewrite <- !(assoc_L (++)). simpl.
    destruct (can_open_wb w _); [|done].
    by destruct (jpeg_save_handler _ _).
Qed.

(** No mode with an alpha band is in the JPEG writer's table. *)
Lemma alpha_mode_not_writable m :
  has_alpha_band m = true → m ∉ JPEG_RAWMODE.
Proof.
  unfold has_alpha_band. intros Hm%bool_decide_eq_true.
  rewrite !elem_of_cons in Hm.
  destruct Hm as [->|[->|[->|[->|[->|Hm]]]]];
    [apply (bool_decide_unpack _); vm_compute; exact I..|].
  by apply elem_of_nil in Hm.
Qed.

(** ** The view *)

Lemma output_path_fresh filepath :
  Py.lower (snd (os_path_splitext filepath)) = ".png" →
  fst (os_path_splitext filepath) +:+ ".jpg" ≠ filepath.
Proof.
  intros Hext Heq. pose proof (splitext_concat filepath) as Hc.
  destruct (os_path_splitext filepath) as [root ext]; simpl in *.
  rewrite <- Hc in Heq. apply (inj (String.app _)) in Heq. by rewrite <- Heq in Hext.
Qed.

Lemma send_file_world path w : snd (send_file path w) = w.
Proof.
  unfold send_file. destruct (files w !! path); [done|]. by case_bool_decide.
Qed.

Lemma send_file_found path data w :
  files w !! path = Some data →
  send_file path w =
    (Return (mkResponse 200 (FileBody data) (Some (os_path_basename path))), w).
Proof. unfold send_file. by intros ->. Qed.

Lemma send_file_same_disk path w v :
  files w = files v → dirs w = dirs v →
  fst (send_file path w) = fst (send_file path v).
Proof.
  unfold send_file. intros -> ->.
  destruct (files v !! path); [done|]. by case_bool_decide.
Qed.

(** Lines 12-18: the lookup, the guard and the save. *)
Lemma convert_saved request file w :
  MultiDict_get (request_files request) "file" = Some file →
  filename file ≠ "" →
  convert codec request w =
    let filepath := os_path_join UPLOAD_FOLDER (filename file) in
    if can_open_wb w filepath then
      bind (convert_to_jpeg codec filepath) send_file
           (set_files (insert filepath (stream file)) w)
    else (Raise (open_error w filepath), w).
Proof.
  intros Hget Hname. unfold convert, MultiDict_getitem. rewrite Hget.
  unfold bind at 1. unfold ret at 1. unfold FileStorage_bool.
  destruct (String.eqb_spec (filename file) "") as [?|_]; [done|]. simpl.
  destruct (can_open_wb w _) eqn:Hok.
  - unfold bind at 1. by rewrite (FileStorage_save_ok _ _ _ Hok).
  - unfold bind at 1. by rewrite (FileStorage_save_fails _ _ _ Hok).
Qed.

(** An upload that line 29 does not treat as PNG. *)
Lemma convert_not_png request file w :
  MultiDict_get (request_files request) "file" = Some file →
  filename file ≠ "" →
  Py.lower (snd (os_path_splitext (filename file))) ≠ ".png" →
  let filepath := os_path_join UPLOAD_FOLDER (filename file) in
  can_open_wb w filepath = true →
  convert codec request w =
    send_file (fst (os_path_splitext filepath) +:+ ".jpg")
              (set_files (insert filepath (stream file)) w).
Proof.
  intros Hget Hname Hext filepath Hok.
  rewrite (convert_saved _ _ _ Hget Hname). fold filepath. cbv zeta. rewrite Hok.
  unfold bind. rewrite convert_to_jpeg_skip; [done|].
  unfold filepath, UPLOAD_FOLDER. by rewrite splitext_join_uploads.
Qed.

(** An upload that line 29 treats as PNG. *)
Lemma convert_png request file w :
  MultiDict_get (request_files request) "file" = Some file →
  filename file ≠ "" →
  Py.lower (snd (os_path_splitext (filename file))) = ".png" →
  let filepath := os_path_join UPLOAD_FOLDER (filename file) in
  let output_path := fst (os_path_splitext filepath) +:+ ".jpg" in
  let w1 := set_files (insert filepath (stream file)) w in
  can_open_wb w filepath = true →
  convert codec request w =
    match decode codec (stream file) with
    | None =>
        (Raise (decode_error codec (stream file)),
         log_calls (undecoded_calls codec filepath output_path (stream file)) w1)
    | Some img =>
        let w2 := log_calls (png_calls filepath output_path img) w1 in
        if can_open_wb w output_path then
          match jpeg_save_handler codec (encoder_input img) with
          | inr jpeg =>
              (Return (mkResponse 200 (FileBody jpeg) (Some (os_path_basename output_path))),
               set_files (insert output_path jpeg) w2)
          | inl e => (Raise e, set_files (truncate_existing w1 output_path) w2)
          end
        else (Raise (open_error w1 output_path), w2)
    end.
Proof.
  intros Hget Hname Hext filepath output_path w1 Hok.
  rewrite (convert_saved _ _ _ Hget Hname). fold filepath. cbv zeta. rewrite Hok.
  fold w1. unfold bind.
  assert (Py.lower (snd (os_path_splitext filepath)) = ".png") as Hext'.
  { unfold filepath, UPLOAD_FOLDER. by rewrite splitext_join_uploads. }
  rewrite (convert_to_jpeg_png filepath (stream file) w1 Hext');
    [|apply lookup_insert_eq].
  cbv zeta. fold output_path.
  destruct (decode codec (stream file)) as [img|]; [|done].
  rewrite (can_open_wb_dirs w1 w output_path eq_refl).
  destruct (can_open_wb w output_path); [|done].
  destruct (jpeg_save_handler codec (encoder_input img)) as [e|jpeg]; [done|].
  apply send_file_found. apply lookup_insert_eq.
Qed.

(** ** Replaying a request *)

Lemma os_path_exists_same_disk w v path :
  files w = files v → dirs w = dirs v →
  os_path_exists w path = os_path_exists v path.
Proof. unfold os_path_exists. by intros -> ->. Qed.

(** Serving the same request again, on the disk the first run left,
    answers the same and leaves the same disk. *)
Lemma convert_replay request w :
  let run1 := convert codec request w in
  let run2 := convert codec request (snd run1) in
  fst run2 = fst run1 ∧ files (snd run2) = files (snd run1) ∧ dirs (snd run2) = dirs (snd run1).
Proof.
  cbv zeta.
  destruct (MultiDict_get (request_files request) "file") as [file|] eqn:Hget;
    [|by rewrite (convert_no_field _ w Hget); simpl; rewrite (convert_no_field _ w Hget)].
  destruct (String.eqb_spec (filename file) "") as [Hname|Hname];
    [by rewrite (convert_falsy_file _ _ w Hget Hname); simpl; rewrite (convert_falsy_file _ _ w Hget Hname)|].
  set (filepath := os_path_join UPLOAD_FOLDER (filename file)).
  destruct (can_open_wb w filepath) eqn:Hok; cycle 1.
  { rewrite (convert_saved _ _ w Hget Hname). fold filepath. cbv zeta.
    rewrite Hok. simpl.
    rewrite (convert_saved _ _ w Hget Hname). fold filepath. cbv zeta.
    by rewrite Hok. }
  set (output_path := fst (os_path_splitext filepath) +:+ ".jpg").
  set (w1 := set_files (insert filepath (stream file)) w).
  assert (∀ v, dirs v = dirs w → can_open_wb v filepath = true) as Hok'.
  { intros v Hv. by rewrite (can_open_wb_dirs v w _ Hv). }
  destruct (String.eqb_spec (Py.lower (snd (os_path_splitext (filename file)))) ".png")
    as [Hext|Hext]; cycle 1.
  { (* not a PNG name: only the upload is written *)
    rewrite (convert_not_png _ _ w Hget Hname Hext Hok).
    fold filepath output_path w1. rewrite send_file_world.
    rewrite (convert_not_png _ _ w1 Hget Hname Hext (Hok' w1 eq_refl)).
    fold filepath output_path. rewrite send_file_world.
    assert (files (set_files (insert filepath (stream file)) w1) = files w1) as Hf.
    { simpl. apply insert_insert_eq. }
    split; [|done]. by apply send_file_same_disk. }
  assert (output_path ≠ filepath) as Hne.
  { apply output_path_fresh. unfold filepath, UPLOAD_FOLDER.
    by rewrite splitext_join_uploads. }
  rewrite (convert_png _ _ w Hget Hname Hext Hok). fold filepath output_path w1.
  destruct (decode codec (stream file)) as [img|] eqn:Hdec; cycle 1.
  { (* the upload does not decode *)
    simpl.
    set (W := log_calls _ w1).
    rewrite (convert_png _ _ W Hget Hname Hext (Hok' W eq_refl)).
    fold filepath. rewrite Hdec. simpl. split; [done|]. split; [|done].
    apply insert_insert_eq. }
  cbv zeta.
  destruct (can_open_wb w output_path) eqn:Hout; cycle 1.
  { (* the output cannot be opened *)
    simpl.
    set (W := log_calls _ w1).
    rewrite (convert_png _ _ W Hget Hname Hext (Hok' W eq_refl)).
    fold filepath output_path. rewrite Hdec. cbv zeta.
    rewrite (can_open_wb_dirs W w output_path eq_refl), Hout.
    simpl. split.
    { f_equal. apply open_error_same_disk; [|done]. simpl. apply insert_insert_eq. }
    split; [|done]. apply insert_insert_eq. }
  destruct (jpeg_save_handler codec (encoder_input img)) as [e|jpeg] eqn:Hsave.
  - (* the encoder refuses the image *)
    simpl.
    set (W := set_files (truncate_existing w1 output_path) (log_calls _ w1)).
    rewrite (convert_png _ _ W Hget Hname Hext (Hok' W eq_refl)).
    fold filepath output_path. rewrite Hdec. cbv zeta.
    rewrite (can_open_wb_dirs W w output_path eq_refl), Hout, Hsave.
    simpl. split; [done|]. split; [|done].
    unfold truncate_existing.
    destruct (os_path_exists w1 output_path) eqn:Hex.
    + assert (os_path_exists (set_files (insert filepath (stream file)) W) output_path = true)
        as ->.
      { unfold os_path_exists. apply bool_decide_eq_true. left. subst W. simpl.
        unfold truncate_existing. rewrite Hex.
        rewrite lookup_insert_ne, lookup_insert_eq by done. by eexists. }
      subst W. simpl.
      apply map_eq. intros k. rewrite !lookup_insert.
      repeat case_decide; congruence.
    + assert (os_path_exists (set_files (insert filepath (stream file)) W) output_path = false)
        as ->.
      { rewrite <- Hex. apply os_path_exists_same_disk; [|done].
        subst W. simpl. unfold truncate_existing. rewrite Hex. simpl.
        apply insert_insert_eq. }
      subst W. simpl.
      apply insert_insert_eq.
  - (* converted *)
    simpl.
    set (W := set_files (insert output_path jpeg) (log_calls _ w1)).
    rewrite (convert_png _ _ W Hget Hname Hext (Hok' W eq_refl)).
    fold filepath output_path. rewrite Hdec. cbv zeta.
    rewrite (can_open_wb_dirs W w output_path eq_refl), Hout, Hsave.
    simpl. split; [done|]. split; [|done].
    apply map_eq. intros k. rewrite !lookup_insert.
    repeat case_decide; congruence.
Qed.

(** ** What a request leaves on disk *)

Lemma insert_keeps (m : gmap string bytes) k v p :
  is_Some (m !! p) → is_Some (<[k:=v]> m !! p).
Proof. rewrite lookup_insert. by case_decide. Qed.

Lemma truncate_existing_keeps w path (m : gmap string bytes) p :
  is_Some (m !! p) → is_Some (truncate_existing w path m !! p).
Proof.
  unfold truncate_existing. destruct (os_path_exists w path); [|done].
  apply insert_keeps.
Qed.

(** No request removes a file that was on disk before it. *)
Lemma convert_keeps_files request w p :
  is_Some (files w !! p) → is_Some (files (snd (convert codec request w)) !! p).
Proof.
  intros Hp.
  destruct (MultiDict_get (request_files request) "file") as [file|] eqn:Hget;
    [|by rewrite (convert_no_field _ w Hget)].
  destruct (String.eqb_spec (filename file) "") as [Hname|Hname];
    [by rewrite (convert_falsy_file _ _ w Hget Hname)|].
  set (filepath := os_path_join UPLOAD_FOLDER (filename file)).
  destruct (can_open_wb w filepath) eqn:Hok; cycle 1.
  { rewrite (convert_saved _ _ w Hget Hname). fold filepath. cbv zeta. by rewrite Hok. }
  destruct (String.eqb_spec (Py.lower (snd (os_path_splitext (filename file)))) ".png")
    as [Hext|Hext]; cycle 1.
  { rewrite (convert_not_png _ _ w Hget Hname Hext Hok), send_file_world. simpl.
    by apply insert_keeps. }
  rewrite (convert_png _ _ w Hget Hname Hext Hok). fold filepath.
  set (output_path := fst (os_path_splitext filepath) +:+ ".jpg").
  destruct (decode codec (stream file)) as [img|]; [|by apply insert_keeps].
  cbv zeta. destruct (can_open_wb w output_path); [|by apply insert_keeps].
  destruct (jpeg_save_handler _ _); simpl.
  - by apply truncate_existing_keeps, insert_keeps.
  - by do 2 apply insert_keeps.
Qed.

(** A 200 answer: the upload was saved under the joined path, and the
    body is the file at the computed output path. *)
Lemma convert_200 request w resp w' :
  convert codec request w = (Return resp, w') →
  status resp = 200 →
  ∃ file,
    MultiDict_get (request_files request) "file" = Some file ∧
    let filepath := os_path_join UPLOAD_FOLDER (filename file) in
    let output_path := fst (os_path_splitext filepath) +:+ ".jpg" in
    files w' !! filepath = Some (stream file) ∧
    ∃ data, body resp = FileBody data ∧ files w' !! output_path = Some data.
Proof.
  intros Hrun Hstatus.
  destruct (MultiDict_get (request_files request) "file") as [file|] eqn:Hget;
    [|by rewrite (convert_no_field _ w Hget) in Hrun].
  destruct (String.eqb_spec (filename file) "") as [Hname|Hname].
  { rewrite (convert_falsy_file _ _ w Hget Hname) in Hrun.
    injection Hrun as <- _. done. }
  exists file. split; [done|]. cbv zeta.
  set (filepath := os_path_join UPLOAD_FOLDER (filename file)) in *.
  set (output_path := fst (os_path_splitext filepath) +:+ ".jpg").
  destruct (can_open_wb w filepath) eqn:Hok; cycle 1.
  { rewrite (convert_saved _ _ w Hget Hname) in Hrun. fold filepath in Hrun.
    cbv zeta in Hrun. by rewrite Hok in Hrun. }
  destruct (String.eqb_spec (Py.lower (snd (os_path_splitext (filename file)))) ".png")
    as [Hext|Hext]; cycle 1.
  { rewrite (convert_not_png _ _ w Hget Hname Hext Hok) in Hrun.
    fold filepath output_path in Hrun. unfold send_file in Hrun.
    destruct (files _ !! output_path) as [data|] eqn:Hout;
      [|by case_bool_decide].
    injection Hrun as <- <-. split; [apply lookup_insert_eq|]. by exists data. }
  assert (output_path ≠ filepath) as Hne.
  { apply output_path_fresh. unfold filepath, UPLOAD_FOLDER.
    by rewrite splitext_join_uploads. }
  rewrite (convert_png _ _ w Hget Hname Hext Hok) in Hrun.
  fold filepath output_path in Hrun.
  destruct (decode codec (stream file)) as [img|]; [|done].
  cbv zeta in Hrun. destruct (can_open_wb w output_path); [|done].
  destruct (jpeg_save_handler _ _) as [e|jpeg]; [done|].
  injection Hrun as <- <-. simpl. split.
  - by rewrite lookup_insert_ne, lookup_insert_eq.
  - exists jpeg. by rewrite lookup_insert_eq.
Qed.

(** ** Plain file names *)

(** Once the upload directory exists, a single-component name that the
    filesystem takes and that no directory bears can be saved in it. *)
Lemma plain_name_can_open w name :
  UPLOAD_FOLDER ∈ dirs w →
  plain_name name →
  name_fits name →
  os_path_join UPLOAD_FOLDER name ∉ dirs w →
  can_open_wb w (os_path_join UPLOAD_FOLDER name) = true.
Proof.
  intros Hup [Hsep Hname] [Hnul Hlen] Hdir. unfold UPLOAD_FOLDER in *.
  assert (name ≠ "") as Hne by (intros ->; apply Hname; constructor).
  assert (os_path_join "uploads" name = "uploads/" +:+ name) as Hjoin
    by by apply join_uploads_plain.
  rewrite Hjoin in *.
  assert (Py.rstrip sep ("uploads/" +:+ name) = "uploads/" +:+ name) as Hstrip.
  { rewrite rstrip_app; rewrite rstrip_no_sep by done; done. }
  unfold can_open_wb, open_wb_error.
  assert (has_nul ("uploads/" +:+ name) = false) as ->.
  { unfold has_nul in *. rewrite rfind_app.
    destruct (0 <=? Py.rfind "000" name); [done|]. done. }
  assert ((PATH_MAX <=? Z.of_nat (String.length ("uploads/" +:+ name))) = false) as ->.
  { apply Z.leb_gt. rewrite length_app. unfold PATH_MAX, NAME_MAX in *.
    simpl String.length. lia. }
  assert (String.eqb ("uploads/" +:+ name) "" = false) as -> by done.
  assert (walk_parent (dirs w) ("uploads/" +:+ name) = Dir "uploads") as ->.
  { unfold walk_parent. rewrite Hstrip, split_uploads_components by done.
    change (Py.startswith ("uploads/" +:+ name) (String sep "")) with false.
    cbn [removelast walk]. change (child "" "uploads") with "uploads".
    by rewrite bool_decide_eq_true_2. }
  unfold is_directory, last_component.
  rewrite Hstrip, split_uploads_components by done.
  cbn [List.last]. rewrite String.eqb_refl. cbn [negb orb].
  rewrite bool_decide_eq_false_2 by done.
  assert ((NAME_MAX <? Z.of_nat (String.length name)) = false) as ->
    by (apply Z.ltb_ge; lia).
  unfold child. rewrite Hjoin.
  by rewrite bool_decide_eq_false_2 by tauto.
Qed.

Lemma startup_makes_upload_folder w w' :
  startup w = (Return tt, w') → UPLOAD_FOLDER ∈ dirs w' ∧ files w' = files w.
Proof.
  unfold startup, os_makedirs. case_bool_decide; [done|].
  intros [= <-]. simpl. split; [set_solver | done].
Qed.

Lemma stem_ext_plain X e :
  Py.rfind sep X = -1 → has_stem X = true →
  Py.rfind extsep e = 0 → Py.rfind sep e = -1 →
  plain_name (X +:+ e).
Proof.
  intros HX Hstem Hdot Hsep. split.
  - by rewrite rfind_app, Hsep.
  - pose proof (splitext_stem_ext X e Hstem Hdot Hsep) as Hsplit.
    intros Hin. rewrite !elem_of_cons, elem_of_nil in Hin.
    destruct Hin as [Heq|[Heq|[Heq|[]]]];
      rewrite Heq in Hsplit; vm_compute in Hsplit;
      injection Hsplit as _ <-; done.
Qed.

(** Two uploads of the same bytes under the same PNG name, on any two
    disks: when both are answered 200, the two answers and the two output
    files are the same. *)
Lemma png_upload_deterministic request file w v resp_w resp_v :
  MultiDict_get (request_files request) "file" = Some file →
  Py.lower (snd (os_path_splitext (filename file))) = ".png" →
  fst (convert codec request w) = Return resp_w →
  fst (convert codec request v) = Return resp_v →
  let output_path :=
    fst (os_path_splitext (os_path_join UPLOAD_FOLDER (filename file))) +:+ ".jpg" in
  resp_w = resp_v ∧
  files (snd (convert codec request w)) !! output_path =
    files (snd (convert codec request v)) !! output_path.
Proof.
  intros Hget Hext Hw Hv output_path.
  assert (filename file ≠ "") as Hname.
  { intros Hempty. by rewrite Hempty in Hext. }
  set (filepath := os_path_join UPLOAD_FOLDER (filename file)) in *.
  assert (∀ u resp, fst (convert codec request u) = Return resp →
            ∃ img jpeg, decode codec (stream file) = Some img ∧
              jpeg_save_handler codec (encoder_input img) = inr jpeg ∧
              resp = mkResponse 200 (FileBody jpeg) (Some (os_path_basename output_path)) ∧
              files (snd (convert codec request u)) !! output_path = Some jpeg) as Hinv.
  { intros u resp Hu.
    destruct (can_open_wb u filepath) eqn:Hok; cycle 1.
    { rewrite (convert_saved _ _ u Hget Hname) in Hu. fold filepath in Hu.
      cbv zeta in Hu. by rewrite Hok in Hu. }
    rewrite (convert_png _ _ u Hget Hname Hext Hok) in *.
    fold filepath output_path in Hu |- *.
    destruct (decode codec (stream file)) as [img|]; [|done].
    cbv zeta in Hu |- *. destruct (can_open_wb u output_path); [|done].
    destruct (jpeg_save_handler _ _) as [e|jpeg] eqn:Hs; [done|].
    exists img, jpeg. simpl in *. injection Hu as <-.
    by rewrite lookup_insert_eq. }
  destruct (Hinv w resp_w Hw) as (img & jpeg & Hdec & Hsave & -> & ->).
  destruct (Hinv v resp_v Hv) as (img' & jpeg' & Hdec' & Hsave' & -> & ->).
  rewrite Hdec in Hdec'. injection Hdec' as <-.
  rewrite Hsave in Hsave'. by injection Hsave' as <-.
Qed.

End HandlerFacts.

(** * The claims of the specification *)

Section Claims.

Variable codec : Codec.

Implicit Types (w : World) (file : FileStorage) (request : Request).

(** C1 (the code departs from it).  A request whose form has no [file]
    field never reaches the guard of line 13: the subscript of line 12
    raises [BadRequestKeyError], so the handler returns no
    [{"error": "No file uploaded"}] body.  Nothing is written. *)
Theorem missing_file_field_raises request w :
  MultiDict_get (request_files request) "file" = None →
  convert codec request w = (Raise (BadRequestKeyError "file"), w).
Proof. apply convert_no_field. Qed.

(** C2 (the code departs from it).  An upload named as a PNG that decodes
    to an image whose mode is neither RGBA nor one the JPEG writer
    accepts (a palette or grey-with-alpha PNG) is saved, decoded and then
    refused by the encoder: the handler raises instead of answering 200,
    and no JPEG is left at the output path. *)
Theorem png_with_unwritable_mode_raises request file img w :
  MultiDict_get (request_files request) "file" = Some file →
  Py.lower (snd (os_path_splitext (filename file))) = ".png" →
  decode codec (stream file) = Some img →
  mode img ≠ "RGBA" →
  mode img ∉ JPEG_RAWMODE →
  let filepath := os_path_join UPLOAD_FOLDER (filename file) in
  let output_path := fst (os_path_splitext filepath) +:+ ".jpg" in
  can_open_wb w filepath = true →
  can_open_wb w output_path = true →
  let run := convert codec request w in
  fst run = Raise (OSError ("cannot write mode " +:+ mode img +:+ " as JPEG")) ∧
  ∀ data, files (snd run) !! output_path = Some data → data = [].
Proof.
  intros Hget Hext Hdec Hrgba Hraw filepath output_path Hok Hout run.
  assert (filename file ≠ "") as Hname.
  { intros Hempty. by rewrite Hempty in Hext. }
  subst run. rewrite (convert_png _ _ _ w Hget Hname Hext Hok).
  fold filepath output_path. rewrite Hdec. cbv zeta. rewrite Hout.
  assert (encoder_input img = img) as ->.
  { unfold encoder_input. by destruct (String.eqb_spec (mode img) "RGBA"). }
  unfold jpeg_save_handler. rewrite bool_decide_eq_false_2 by done.
  split; [done|]. simpl. unfold truncate_existing.
  destruct (os_path_exists _ output_path) eqn:Hex.
  - rewrite lookup_insert_eq. congruence.
  - apply bool_decide_eq_false in Hex. intros data Hdata.
    destruct Hex. left. by exists data.
Qed.


(** C4 (the code departs from it).  A PNG input whose decoded mode has an
    alpha band but is not RGBA (LA, PA) is not flattened: line 33 tests for
    RGBA only, so no convert call is made and the image reaches the JPEG
    save in its own mode, alpha band included.  [convert_to_jpeg] then
    never returns: when the output can be opened, the save raises
    [cannot write mode ... as JPEG] and leaves no JPEG at the output
    path. *)
Theorem alpha_png_other_than_rgba_not_flattened filepath data img w :
  Py.lower (snd (os_path_splitext filepath)) = ".png" →
  files w !! filepath = Some data →
  decode codec data = Some img →
  has_alpha_band (mode img) = true →
  mode img ≠ "RGBA" →
  let output_path := fst (os_path_splitext filepath) +:+ ".jpg" in
  let run := convert_to_jpeg codec filepath w in
  pil_calls (snd run) =
    pil_calls w ++ [Image_open_call filepath;
                    Image_save_call output_path (mode img) "JPEG"] ∧
  (∀ out, fst run ≠ Return out) ∧
  (can_open_wb w output_path = true →
   fst run = Raise (OSError ("cannot write mode " +:+ mode img +:+ " as JPEG")) ∧
   ∀ jpeg, files (snd run) !! output_path = Some jpeg → jpeg = []).
Proof.
  intros Hext Hfile Hdec Halpha Hmode output_path run. subst run.
  rewrite (convert_to_jpeg_png _ _ _ _ Hext Hfile), Hdec. cbv zeta.
  fold output_path.
  assert (String.eqb (mode img) "RGBA" = false) as Hneq by by apply String.eqb_neq.
  unfold png_calls, encoder_input. rewrite Hneq.
  unfold jpeg_save_handler.
  rewrite bool_decide_eq_false_2 by by apply alpha_mode_not_writable.
  destruct (can_open_wb w output_path); simpl.
  - split; [done|]. split; [done|]. intros _. split; [done|].
    unfold truncate_existing.
    destruct (os_path_exists w output_path) eqn:Hex.
    + rewrite lookup_insert_eq. congruence.
    + apply bool_decide_eq_false in Hex. intros jpeg Hjpeg.
      destruct Hex. left. by exists jpeg.
  - split; [done|]. split; [done|]. done.
Qed.

(** C5.  [convert_to_jpeg] decodes and encodes only under the test of
    line 29: for a path whose lowered extension is not [.png] it returns at
    once and leaves the world as it was, with no Pillow call made and no
    file written. *)
Theorem conversion_only_for_png filepath w :
  Py.lower (snd (os_path_splitext filepath)) ≠ ".png" →
  convert_to_jpeg codec filepath w =
    (Return (fst (os_path_splitext filepath) +:+ ".jpg"), w).
Proof. apply convert_to_jpeg_skip. Qed.

(** C6.  [os.path.splitext] cuts the input path in a root and an
    extension, and whenever [convert_to_jpeg] returns, it returns the root
    with [.jpg] appended; it can only raise on the PNG branch. *)
Theorem output_path_replaces_extension filepath w :
  let '(root, ext) := os_path_splitext filepath in
  root +:+ ext = filepath ∧
  match fst (convert_to_jpeg codec filepath w) with
  | Return output_path => output_path = root +:+ ".jpg"
  | Raise _ => Py.lower ext = ".png"
  end.
Proof.
  pose proof (splitext_concat filepath) as Hcat.
  pose proof (convert_to_jpeg_returns codec filepath w) as Hret.
  pose proof (convert_to_jpeg_skip codec filepath w) as Hskip.
  destruct (os_path_splitext filepath) as [root ext]; simpl in *.
  split; [done|].
  destruct (convert_to_jpeg codec filepath w) as [[out|e] w'] eqn:Hrun; simpl.
  - by eapply Hret.
  - destruct (String.eqb_spec (Py.lower ext) ".png") as [|Hne]; [done|].
    by specialize (Hskip Hne).
Qed.

(** C7 (as amended).  Uploading the same bytes twice under the same name
    [X.png], where the last path component of [X] has a character other
    than a dot: when the first upload is answered, the answer is a 200 with
    the JPEG encoding of the decoded image (after the RGBA test), [X.jpg]
    in the upload directory holds those bytes after the first upload and
    after the second, the second upload is answered as the first, and it
    leaves every file as the first left it. *)
Theorem same_upload_twice_same_jpg (X : string) (data : bytes) w resp :
  has_stem X = true →
  let request := mkRequest [("file", mkFileStorage (X +:+ ".png") data)] in
  let output_path := os_path_join UPLOAD_FOLDER (X +:+ ".jpg") in
  let run1 := convert codec request w in
  let run2 := convert codec request (snd run1) in
  fst run1 = Return resp →
  ∃ img jpeg,
    decode codec data = Some img ∧
    encode_jpeg codec (encoder_input img) = Some jpeg ∧
    resp = mkResponse 200 (FileBody jpeg) (Some (os_path_basename output_path)) ∧
    files (snd run1) !! output_path = Some jpeg ∧
    files (snd run2) !! output_path = Some jpeg ∧
    fst run2 = Return resp ∧
    files (snd run2) = files (snd run1).
Proof.
  intros Hstem request output_path run1 run2 Hret.
  destruct (convert_replay codec request w) as (Hans & Hfiles & _).
  fold run1 run2 in Hans, Hfiles.
  set (file := mkFileStorage (X +:+ ".png") data).
  assert (MultiDict_get (request_files request) "file" = Some file) as Hget by done.
  assert (os_path_splitext (filename file) = (X, ".png")) as Hsplit
    by by apply splitext_stem_ext.
  assert (filename file ≠ "") as Hname.
  { intros Hempty. by rewrite Hempty in Hsplit. }
  assert (Py.lower (snd (os_path_splitext (filename file))) = ".png") as Hext
    by by rewrite Hsplit.
  assert (fst (os_path_splitext (os_path_join UPLOAD_FOLDER (filename file))) +:+ ".jpg"
          = output_path) as Hout.
  { unfold output_path, UPLOAD_FOLDER. rewrite splitext_join_uploads, Hsplit.
    symmetry. by apply join_uploads_app, has_stem_nonempty. }
  assert (∃ img jpeg,
            decode codec data = Some img ∧
            encode_jpeg codec (encoder_input img) = Some jpeg ∧
            resp = mkResponse 200 (FileBody jpeg) (Some (os_path_basename output_path)) ∧
            files (snd run1) !! output_path = Some jpeg) as (img & jpeg & Hdec & Henc & -> & H1).
  { revert Hret. unfold run1.
    destruct (can_open_wb w (os_path_join UPLOAD_FOLDER (filename file))) eqn:Hok; cycle 1.
    { rewrite (convert_saved _ _ _ w Hget Hname). cbv zeta. by rewrite Hok. }
    rewrite (convert_png _ _ _ w Hget Hname Hext Hok). rewrite Hout. simpl stream.
    destruct (decode codec data) as [img|]; [|done]. cbv zeta.
    destruct (can_open_wb w output_path); [|done].
    unfold jpeg_save_handler. case_bool_decide; [|done].
    destruct (encode_jpeg codec (encoder_input img)) as [jpeg|] eqn:Henc; [|done].
    simpl. intros [= <-]. exists img, jpeg. repeat split; [done|]. apply lookup_insert_eq. }
  exists img, jpeg. rewrite Hfiles, Hans. done.
Qed.

(** C8.  When the handler answers 200, the uploaded bytes are on disk,
    unmodified, at [os.path.join("uploads", filename)] for the filename as
    the client sent it, the file sent back is on disk at the computed
    output path, and every file that was on disk before the request is
    still there. *)
Theorem upload_stored_under_client_name request w resp w' :
  convert codec request w = (Return resp, w') →
  status resp = 200 →
  ∃ file,
    MultiDict_get (request_files request) "file" = Some file ∧
    let filepath := os_path_join UPLOAD_FOLDER (filename file) in
    let output_path := fst (os_path_splitext filepath) +:+ ".jpg" in
    files w' !! filepath = Some (stream file) ∧
    (∃ sent, body resp = FileBody sent ∧ files w' !! output_path = Some sent) ∧
    ∀ p, is_Some (files w !! p) → is_Some (files w' !! p).
Proof.
  intros Hrun Hstatus.
  destruct (convert_200 codec request w resp w' Hrun Hstatus) as (file & Hget & Hup & Hout).
  exists file. split; [done|]. cbv zeta. split; [done|]. split; [done|].
  intros p Hp. pose proof (convert_keeps_files codec request w p Hp) as Hkeep.
  by rewrite Hrun in Hkeep.
Qed.

(** C9 (as amended).  For an upload whose filename has, in the sense of
    [os.path.splitext], the extension [.jpg] exactly, and whose save
    succeeds, the computed output path is the saved path and the handler
    answers 200 with the uploaded bytes; the upload is the only change to
    the world, and no Pillow call is made. *)
Theorem jpg_upload_sent_back request file w :
  MultiDict_get (request_files request) "file" = Some file →
  snd (os_path_splitext (filename file)) = ".jpg" →
  let filepath := os_path_join UPLOAD_FOLDER (filename file) in
  can_open_wb w filepath = true →
  fst (os_path_splitext filepath) +:+ ".jpg" = filepath ∧
  convert codec request w =
    (Return (mkResponse 200 (FileBody (stream file)) (Some (os_path_basename filepath))),
     set_files (insert filepath (stream file)) w).
Proof.
  intros Hget Hext filepath Hok.
  assert (filename file ≠ "") as Hname.
  { intros Hempty. by rewrite Hempty in Hext. }
  assert (fst (os_path_splitext filepath) +:+ ".jpg" = filepath) as Hsame.
  { pose proof (splitext_concat filepath) as Hcat.
    unfold filepath, UPLOAD_FOLDER in *.
    rewrite splitext_join_uploads in *. simpl in *. by rewrite Hext in Hcat. }
  split; [done|].
  rewrite (convert_not_png _ _ _ w Hget Hname); [|by rewrite Hext|done].
  fold filepath. rewrite Hsame.
  apply send_file_found. apply lookup_insert_eq.
Qed.

(** C10.  A [file] field whose filename is empty is falsy: the guard of
    line 13 answers 400 with the error body, and the world is untouched. *)
Theorem empty_filename_rejected request file w :
  MultiDict_get (request_files request) "file" = Some file →
  filename file = "" →
  convert codec request w =
    (Return (mkResponse 400 (JsonBody [("error", "No file uploaded")]) None), w).
Proof. apply convert_falsy_file. Qed.

End Claims.

(** * The claims on concrete requests *)

Lemma missing_file_field_raises_witness :
  MultiDict_get (request_files (mkRequest [])) "file" = None ∧
  convert Sample.codec (mkRequest []) Sample.started =
    (Raise (BadRequestKeyError "file"), Sample.started).
Proof.
  split; [reflexivity|].
  apply (missing_file_field_raises Sample.codec (mkRequest []) Sample.started).
  reflexivity.
Defined.

Lemma png_with_unwritable_mode_raises_witness :
  decode Sample.codec Sample.p_png = Some (mkImage "P" (1%nat, 1%nat) []) ∧
  fst (convert Sample.codec (Sample.upload "a.png" Sample.p_png) Sample.started) =
    Raise (OSError "cannot write mode P as JPEG") ∧
  files (snd (convert Sample.codec (Sample.upload "a.png" Sample.p_png) Sample.started))
    !! "uploads/a.jpg" = None.
Proof.
  split; [reflexivity|].
  assert (mode (mkImage "P" (1%nat, 1%nat) []) ∉ JPEG_RAWMODE) as Hraw.
  { apply (bool_decide_unpack _). vm_compute. exact I. }
  destruct (png_with_unwritable_mode_raises Sample.codec
              (Sample.upload "a.png" Sample.p_png)
              (mkFileStorage "a.png" Sample.p_png)
              (mkImage "P" (1%nat, 1%nat) []) Sample.started
              eq_refl eq_refl eq_refl ltac:(discriminate) Hraw eq_refl eq_refl)
    as [Hraise _].
  split; [exact Hraise|].
  vm_compute. reflexivity.
Defined.


Lemma alpha_png_other_than_rgba_not_flattened_witness :
  mode <$> decode Sample.codec Sample.la_png = Some "LA" ∧
  has_alpha_band "LA" = true ∧
  pil_calls (snd (convert_to_jpeg Sample.codec "uploads/a.png"
                    (Sample.with_file "uploads/a.png" Sample.la_png Sample.started))) =
    [Image_open_call "uploads/a.png"; Image_save_call "uploads/a.jpg" "LA" "JPEG"] ∧
  fst (convert_to_jpeg Sample.codec "uploads/a.png"
         (Sample.with_file "uploads/a.png" Sample.la_png Sample.started)) =
    Raise (OSError "cannot write mode LA as JPEG") ∧
  files (snd (convert_to_jpeg Sample.codec "uploads/a.png"
                (Sample.with_file "uploads/a.png" Sample.la_png Sample.started)))
    !! "uploads/a.jpg" = None.
Proof.
  split; [reflexivity|]. split; [reflexivity|].
  destruct (alpha_png_other_than_rgba_not_flattened Sample.codec "uploads/a.png"
              Sample.la_png (mkImage "LA" (1%nat, 1%nat) [])
              (Sample.with_file "uploads/a.png" Sample.la_png Sample.started)
              eq_refl eq_refl eq_refl eq_refl ltac:(discriminate))
    as (Hcalls & _ & Hraise).
  split; [exact Hcalls|].
  split; [exact (proj1 (Hraise eq_refl))|].
  vm_compute. reflexivity.
Defined.

Lemma same_upload_twice_same_jpg_witness :
  has_stem "a" = true ∧
  fst (convert Sample.codec (Sample.upload "a.png" Sample.rgba_png) Sample.started) =
    Return (mkResponse 200 (FileBody Sample.soi_eoi) (Some "a.jpg")) ∧
  files (snd (convert Sample.codec (Sample.upload "a.png" Sample.rgba_png) Sample.started))
    !! "uploads/a.jpg" = Some Sample.soi_eoi ∧
  files (snd (convert Sample.codec (Sample.upload "a.png" Sample.rgba_png)
                (snd (convert Sample.codec (Sample.upload "a.png" Sample.rgba_png)
                        Sample.started))))
    !! "uploads/a.jpg" = Some Sample.soi_eoi.
Proof.
  split; [reflexivity|].
  assert (fst (convert Sample.codec (Sample.upload "a.png" Sample.rgba_png) Sample.started) =
          Return (mkResponse 200 (FileBody Sample.soi_eoi) (Some "a.jpg"))) as Hret
    by (vm_compute; reflexivity).
  split; [exact Hret|].
  destruct (same_upload_twice_same_jpg Sample.codec "a" Sample.rgba_png Sample.started
              (mkResponse 200 (FileBody Sample.soi_eoi) (Some "a.jpg")) eq_refl Hret)
    as (img & jpeg & _ & _ & Hresp & Hone & Htwo & _).
  injection Hresp as <-.
  split; [exact Hone | exact Htwo].
Defined.

Lemma conversion_only_for_png_witness :
  String.eqb (Py.lower (snd (os_path_splitext "uploads/a.gif"))) ".png" = false ∧
  convert_to_jpeg Sample.codec "uploads/a.gif" Sample.started =
    (Return "uploads/a.jpg", Sample.started).
Proof.
  split; [reflexivity|].
  apply (conversion_only_for_png Sample.codec "uploads/a.gif" Sample.started).
  discriminate.
Defined.

Lemma upload_stored_under_client_name_witness :
  fst (convert Sample.codec (Sample.upload "a.png" Sample.rgba_png) Sample.started) =
    Return (mkResponse 200 (FileBody Sample.soi_eoi) (Some "a.jpg")) ∧
  files (snd (convert Sample.codec (Sample.upload "a.png" Sample.rgba_png) Sample.started))
    !! "uploads/a.png" = Some Sample.rgba_png.
Proof.
  split; [vm_compute; reflexivity|].
  destruct (upload_stored_under_client_name Sample.codec
              (Sample.upload "a.png" Sample.rgba_png) Sample.started
              (mkResponse 200 (FileBody Sample.soi_eoi) (Some "a.jpg"))
              (snd (convert Sample.codec (Sample.upload "a.png" Sample.rgba_png)
                      Sample.started)))
    as (file & Hget & Hup & _).
  - vm_compute. reflexivity.
  - reflexivity.
  - injection Hget as <-. exact Hup.
Defined.

Lemma jpg_upload_sent_back_witness :
  snd (os_path_splitext "a.jpg") = ".jpg" ∧
  fst (convert Sample.codec (Sample.upload "a.jpg" Sample.soi_eoi) Sample.started) =
    Return (mkResponse 200 (FileBody Sample.soi_eoi) (Some "a.jpg")).
Proof.
  split; [reflexivity|].
  destruct (jpg_upload_sent_back Sample.codec (Sample.upload "a.jpg" Sample.soi_eoi)
              (mkFileStorage "a.jpg" Sample.soi_eoi) Sample.started
              eq_refl eq_refl eq_refl) as [_ Hrun].
  rewrite Hrun. reflexivity.
Defined.

Lemma empty_filename_rejected_witness :
  convert Sample.codec (Sample.upload "" Sample.rgb_png) Sample.started =
    (Return (mkResponse 400 (JsonBody [("error", "No file uploaded")]) None),
     Sample.started).
Proof.
  apply (empty_filename_rejected Sample.codec (Sample.upload "" Sample.rgb_png)
           (mkFileStorage "" Sample.rgb_png) Sample.started); reflexivity.
Defined.


(** C7 as the specification words it fails: a valid PNG uploaded twice
    under the name [.png], which [os.path.splitext] gives no extension, is
    not converted and leaves no [.jpg] in the upload directory; uploaded
    twice under the name [sub/a.png], with no directory [uploads/sub], it
    is not even saved.  Neither upload yields an [X.jpg], the first time or
    the second. *)
Lemma png_uploaded_twice_leaves_no_jpg :
  is_Some (decode Sample.codec Sample.rgb_png) ∧
  (fst (convert Sample.codec (Sample.upload ".png" Sample.rgb_png) Sample.started) =
     Raise (FileNotFoundError "uploads/.png.jpg") ∧
   files (snd (convert Sample.codec (Sample.upload ".png" Sample.rgb_png) Sample.started))
     !! os_path_join UPLOAD_FOLDER ".jpg" = None ∧
   fst (convert Sample.codec (Sample.upload ".png" Sample.rgb_png)
          (snd (convert Sample.codec (Sample.upload ".png" Sample.rgb_png) Sample.started))) =
     Raise (FileNotFoundError "uploads/.png.jpg") ∧
   files (snd (convert Sample.codec (Sample.upload ".png" Sample.rgb_png)
                 (snd (convert Sample.codec (Sample.upload ".png" Sample.rgb_png)
                         Sample.started))))
     !! os_path_join UPLOAD_FOLDER ".jpg" = None) ∧
  (fst (convert Sample.codec (Sample.upload "sub/a.png" Sample.rgb_png) Sample.started) =
     Raise (FileNotFoundError "uploads/sub/a.png") ∧
   files (snd (convert Sample.codec (Sample.upload "sub/a.png" Sample.rgb_png)
                 Sample.started))
     !! os_path_join UPLOAD_FOLDER "sub/a.jpg" = None ∧
   fst (convert Sample.codec (Sample.upload "sub/a.png" Sample.rgb_png)
          (snd (convert Sample.codec (Sample.upload "sub/a.png" Sample.rgb_png)
                  Sample.started))) =
     Raise (FileNotFoundError "uploads/sub/a.png") ∧
   files (snd (convert Sample.codec (Sample.upload "sub/a.png" Sample.rgb_png)
                 (snd (convert Sample.codec (Sample.upload "sub/a.png" Sample.rgb_png)
                         Sample.started))))
     !! os_path_join UPLOAD_FOLDER "sub/a.jpg" = None).
Proof. split; [by eexists|]. repeat split; vm_compute; reflexivity. Qed.

(** C9 as the specification words it fails: the filename [.jpg] ends in
    [.jpg], yet [os.path.splitext] finds no extension in it, the output path
    is not the saved path, and the send fails. *)
Lemma dot_jpg_upload_not_found :
  Py.endswith ".jpg" ".jpg" = true ∧
  os_path_splitext (os_path_join UPLOAD_FOLDER ".jpg") = ("uploads/.jpg", "") ∧
  convert Sample.codec (Sample.upload ".jpg" Sample.soi_eoi) Sample.started =
    (Raise (FileNotFoundError "uploads/.jpg.jpg"),
     Sample.with_file "uploads/.jpg" Sample.soi_eoi Sample.started).
Proof. repeat split; vm_compute; reflexivity. Qed.


(** * More facts about strings and paths *)

Section MoreStringFacts.

Implicit Types (s t p e : string) (c : ascii).

Lemma lower_char_dot c : Py.lower_char c = "."%char → c = "."%char.
Proof. destruct c as [[] [] [] [] [] [] [] []]; vm_compute; congruence. Qed.

Lemma lower_char_not_dot_sep c x :
  Py.lower_char c = x → x ≠ "."%char → x ≠ "/"%char →
  Ascii.eqb c extsep = false ∧ Ascii.eqb c sep = false.
Proof.
  intros Hc Hdot Hsep. split; apply Ascii.eqb_neq; intros ->; by vm_compute in Hc.
Qed.

(** An extension that lowers to [.png] is a dot followed by three
    characters that are neither dots nor slashes. *)
Lemma lower_png_shape e :
  Py.lower e = ".png" → Py.rfind extsep e = 0 ∧ Py.rfind sep e = -1.
Proof.
  destruct e as [|c0 [|c1 [|c2 [|c3 [|c4 e]]]]]; try done.
  intros [= H0 H1 H2 H3].
  apply lower_char_dot in H0 as ->.
  destruct (lower_char_not_dot_sep _ _ H1) as [D1 S1]; [done..|].
  destruct (lower_char_not_dot_sep _ _ H2) as [D2 S2]; [done..|].
  destruct (lower_char_not_dot_sep _ _ H3) as [D3 S3]; [done..|].
  cbn [Py.rfind]. rewrite D1, D2, D3, S1, S2, S3. done.
Qed.

Lemma basename_app p e :
  Py.rfind sep e = -1 → os_path_basename (p +:+ e) = os_path_basename p +:+ e.
Proof.
  intros He. unfold os_path_basename, os_path_split. cbn [snd].
  rewrite rfind_app, He. change (0 <=? -1) with false. cbv iota.
  pose proof (rfind_bounds sep p). apply drop_app_le. lia.
Qed.

Lemma endswith_app s t : Py.endswith (s +:+ t) t = true.
Proof.
  unfold Py.endswith. rewrite length_app.
  replace (String.length s + String.length t - String.length t)%nat
    with (String.length s) by lia.
  rewrite drop_app_exact, String.eqb_refl. simpl. apply Nat.leb_le. lia.
Qed.

Lemma output_basename_ends_in_jpg root :
  Py.endswith (os_path_basename (root +:+ ".jpg")) ".jpg" = true.
Proof. rewrite basename_app by done. apply endswith_app. Qed.

End MoreStringFacts.

(** * More facts about the handler *)

Section MoreHandlerFacts.

Variable codec : Codec.

Implicit Types (w : World) (file : FileStorage) (request : Request).

Lemma truncate_existing_other w path (m : gmap string bytes) p :
  p ≠ path → truncate_existing w path m !! p = m !! p.
Proof.
  intros Hp. unfold truncate_existing. destruct (os_path_exists w path); [|done].
  by rewrite lookup_insert_ne.
Qed.

(** [convert_to_jpeg] on a path that holds no file. *)
Lemma convert_to_jpeg_png_missing filepath w :
  Py.lower (snd (os_path_splitext filepath)) = ".png" →
  files w !! filepath = None →
  convert_to_jpeg codec filepath w =
    (Raise (FileNotFoundError filepath), add_call (Image_open_call filepath) w).
Proof.
  intros Hext Hfile. unfold convert_to_jpeg.
  destruct (os_path_splitext filepath) as [root ext]; simpl in *.
  rewrite Hext. simpl.
  unfold bind at 1. unfold bind at 1.
  unfold Image_open, bind, modify, gets; simpl. by rewrite Hfile.
Qed.

(** [convert_to_jpeg] writes at its output path and nowhere else. *)
Lemma convert_to_jpeg_frame filepath w p :
  p ≠ fst (os_path_splitext filepath) +:+ ".jpg" →
  files (snd (convert_to_jpeg codec filepath w)) !! p = files w !! p.
Proof.
  intros Hp.
  destruct (String.eqb_spec (Py.lower (snd (os_path_splitext filepath))) ".png")
    as [Hext|Hext]; [|by rewrite convert_to_jpeg_skip].
  destruct (files w !! filepath) as [data|] eqn:Hfile;
    [|by rewrite convert_to_jpeg_png_missing].
  rewrite (convert_to_jpeg_png _ _ _ _ Hext Hfile).
  set (output_path := fst (os_path_splitext filepath) +:+ ".jpg") in *.
  destruct (decode codec data) as [img|]; [|done].
  cbv zeta. destruct (can_open_wb w output_path); [|done].
  destruct (jpeg_save_handler _ _); simpl.
  - by apply truncate_existing_other.
  - by rewrite lookup_insert_ne.
Qed.


(** The three ways through [convert] once the field is there and named. *)
Lemma convert_named request file w :
  MultiDict_get (request_files request) "file" = Some file →
  filename file ≠ "" →
  let filepath := os_path_join UPLOAD_FOLDER (filename file) in
  let w1 := set_files (insert filepath (stream file)) w in
  convert codec request w =
    if can_open_wb w filepath then
      match convert_to_jpeg codec filepath w1 with
      | (Return output_file, w2) => send_file output_file w2
      | (Raise e, w2) => (Raise e, w2)
      end
    else (Raise (open_error w filepath), w).
Proof.
  intros Hget Hname filepath w1.
  rewrite (convert_saved codec _ _ w Hget Hname). fold filepath. cbv zeta.
  destruct (can_open_wb w filepath); [|done].
  unfold bind. fold w1. by destruct (convert_to_jpeg codec filepath w1) as [[?|?] ?].
Qed.



(** Once saved, the upload is still there when the request ends. *)
Lemma convert_upload_kept request file w :
  MultiDict_get (request_files request) "file" = Some file →
  filename file ≠ "" →
  let filepath := os_path_join UPLOAD_FOLDER (filename file) in
  can_open_wb w filepath = true →
  files (snd (convert codec request w)) !! filepath = Some (stream file).
Proof.
  intros Hget Hname filepath Hok.
  rewrite (convert_named _ _ w Hget Hname). cbv zeta. fold filepath. rewrite Hok.
  set (w1 := set_files _ w).
  assert (files (snd (convert_to_jpeg codec filepath w1)) !! filepath
          = Some (stream file)) as Hkept.
  { destruct (String.eqb_spec (Py.lower (snd (os_path_splitext filepath))) ".png")
      as [Hext|Hext].
    - rewrite convert_to_jpeg_frame; [apply lookup_insert_eq|].
      intros Heq. by apply (output_path_fresh filepath Hext).
    - rewrite convert_to_jpeg_skip by done. apply lookup_insert_eq. }
  destruct (convert_to_jpeg codec filepath w1) as [[out|e] w2]; simpl in *; [|done].
  by rewrite send_file_world.
Qed.

(** What the handler can return. *)
Lemma convert_return_shape request w resp w' :
  convert codec request w = (Return resp, w') →
  (∃ file, MultiDict_get (request_files request) "file" = Some file ∧
           filename file = "" ∧ w' = w ∧
           resp = mkResponse 400 (JsonBody [("error", "No file uploaded")]) None) ∨
  (∃ file data,
     MultiDict_get (request_files request) "file" = Some file ∧
     filename file ≠ "" ∧
     let output_path :=
       fst (os_path_splitext (os_path_join UPLOAD_FOLDER (filename file))) +:+ ".jpg" in
     files w' !! output_path = Some data ∧
     resp = mkResponse 200 (FileBody data) (Some (os_path_basename output_path))).
Proof.
  intros Hrun.
  destruct (MultiDict_get (request_files request) "file") as [file|] eqn:Hget;
    [|by rewrite (convert_no_field codec _ w Hget) in Hrun].
  destruct (String.eqb_spec (filename file) "") as [Hname|Hname].
  { rewrite (convert_falsy_file codec _ _ w Hget Hname) in Hrun.
    injection Hrun as <- <-. left. by exists file. }
  right. rewrite (convert_named _ _ w Hget Hname) in Hrun. cbv zeta in Hrun.
  set (filepath := os_path_join UPLOAD_FOLDER (filename file)) in *.
  destruct (can_open_wb w filepath); [|done].
  set (w1 := set_files _ w) in *.
  destruct (convert_to_jpeg codec filepath w1) as [[out|e] w2] eqn:Hconv; [|done].
  apply convert_to_jpeg_returns in Hconv as ->.
  unfold send_file in Hrun.
  destruct (files w2 !! _) as [data|] eqn:Hdata; [|by case_bool_decide].
  injection Hrun as <- <-. by exists file, data.
Qed.

End MoreHandlerFacts.

(** * Further properties of the handler *)

Section Properties.

Variable codec : Codec.

Implicit Types (w : World) (file : FileStorage) (request : Request).

(** X1.  A PNG uploaded under a single-component name [X] followed by
    [.png] in any letter case, that Pillow decodes, whose image for the
    encoder the JPEG writer accepts, and for which the upload path and the
    output path can both be opened for writing, is answered 200 with the
    JPEG under the download name [X.jpg]; afterwards the disk holds the
    upload and [X.jpg], and is otherwise as before. *)
Theorem png_name_any_case_converted (X e : string) (data : bytes) img jpeg w :
  Py.rfind sep X = -1 → has_stem X = true →
  Py.lower e = ".png" →
  decode codec data = Some img →
  mode (encoder_input img) ∈ JPEG_RAWMODE →
  encode_jpeg codec (encoder_input img) = Some jpeg →
  can_open_wb w ("uploads/" +:+ X +:+ e) = true →
  can_open_wb w ("uploads/" +:+ X +:+ ".jpg") = true →
  let run := convert codec (mkRequest [("file", mkFileStorage (X +:+ e) data)]) w in
  fst run = Return (mkResponse 200 (FileBody jpeg) (Some (X +:+ ".jpg"))) ∧
  files (snd run) =
    <["uploads/" +:+ X +:+ ".jpg" := jpeg]> (<["uploads/" +:+ X +:+ e := data]> (files w)).
Proof.
  intros HX Hstem He Hdec Hmode Henc Hok Hout run.
  destruct (lower_png_shape e He) as [Hedot Hesep].
  assert (plain_name (X +:+ e)) as Hpng by by apply stem_ext_plain.
  assert (plain_name (X +:+ ".jpg")) as Hjpg by by apply stem_ext_plain.
  assert (os_path_join UPLOAD_FOLDER (X +:+ e) = "uploads/" +:+ X +:+ e) as Hfp.
  { apply join_uploads_plain, Hpng. }
  assert (os_path_splitext ("uploads/" +:+ X +:+ e) = ("uploads/" +:+ X, e)) as Hsplit.
  { rewrite splitext_under_dir by done. by rewrite splitext_stem_ext. }
  set (request := mkRequest _) in *.
  assert (MultiDict_get (request_files request) "file"
          = Some (mkFileStorage (X +:+ e) data)) as Hget by done.
  assert (filename (mkFileStorage (X +:+ e) data) ≠ "") as Hname.
  { simpl. destruct Hpng as [_ Hne]. intros Heq. apply Hne. rewrite Heq. constructor. }
  assert (Py.lower (snd (os_path_splitext (filename (mkFileStorage (X +:+ e) data))))
          = ".png") as Hext.
  { simpl. by rewrite splitext_stem_ext. }
  subst run. rewrite (convert_png codec _ _ w Hget Hname Hext); cycle 1.
  { simpl. by rewrite Hfp. }
  simpl filename. simpl stream. rewrite Hfp, Hsplit, Hdec. cbv zeta. simpl fst.
  rewrite app_assoc, Hout.
  unfold jpeg_save_handler. rewrite bool_decide_eq_true_2 by done. rewrite Henc.
  simpl. split; [|done]. do 3 f_equal.
  unfold os_path_basename.
  change ("uploads/" +:+ X +:+ ".jpg") with ("uploads/" +:+ (X +:+ ".jpg")).
  rewrite split_uploads_plain; [done | apply Hjpg].
Qed.


(** X3.  Once the upload has been saved it stays on disk with its bytes,
    whatever happens next: also when the decode, the encode or the send
    raises. *)
Theorem upload_kept_on_failure request file w :
  MultiDict_get (request_files request) "file" = Some file →
  filename file ≠ "" →
  let filepath := os_path_join UPLOAD_FOLDER (filename file) in
  can_open_wb w filepath = true →
  files (snd (convert codec request w)) !! filepath = Some (stream file).
Proof. apply convert_upload_kept. Qed.

(** X4.  No request removes a file that was on disk before it, whatever
    the request and whether it succeeds or raises (contents may change). *)
Theorem no_request_removes_a_file request w p :
  is_Some (files w !! p) →
  is_Some (files (snd (convert codec request w)) !! p).
Proof. apply convert_keeps_files. Qed.

(** X5.  An upload under a PNG name that Pillow cannot decode raises
    after the save, where Pillow finds out.  When the header cannot be
    read, [Image.open] raises and the open is the only Pillow call.  When
    the header reads and the pixel data does not, the exception comes from
    the first use of the image: the convert when the header says RGBA, the
    JPEG save otherwise.  Either way the upload is on disk and nothing is
    written at the output path. *)
Theorem undecodable_png_raises request file w :
  MultiDict_get (request_files request) "file" = Some file →
  Py.lower (snd (os_path_splitext (filename file))) = ".png" →
  let filepath := os_path_join UPLOAD_FOLDER (filename file) in
  let output_path := fst (os_path_splitext filepath) +:+ ".jpg" in
  let w1 := set_files (insert filepath (stream file)) w in
  can_open_wb w filepath = true →
  (∀ e, identify codec (stream file) = inl e →
        convert codec request w = (Raise e, add_call (Image_open_call filepath) w1)) ∧
  (∀ m sz e,
     identify codec (stream file) = inr (m, sz) →
     load codec (stream file) = inl e →
     convert codec request w =
       (Raise e,
        log_calls [Image_open_call filepath;
                   if String.eqb m "RGBA" then Image_convert_call "RGBA" "RGB"
                   else Image_save_call output_path m "JPEG"] w1)).
Proof.
  intros Hget Hext filepath output_path w1 Hok.
  assert (filename file ≠ "") as Hname.
  { intros Hempty. by rewrite Hempty in Hext. }
  rewrite (convert_png codec _ _ w Hget Hname Hext Hok).
  fold filepath output_path w1.
  unfold decode, decode_error, undecoded_calls. split.
  - intros e ->. done.
  - intros m sz e -> ->. by destruct (String.eqb m "RGBA").
Qed.


(** X8.  A client filename that starts with a slash is not placed under the
    upload directory: the join is the filename itself, and the bytes are
    saved at that absolute path. *)
Theorem absolute_filename_escapes_upload_folder request file w :
  MultiDict_get (request_files request) "file" = Some file →
  Py.startswith (filename file) "/" = true →
  can_open_wb w (filename file) = true →
  os_path_join UPLOAD_FOLDER (filename file) = filename file ∧
  files (snd (convert codec request w)) !! filename file = Some (stream file).
Proof.
  intros Hget Habs Hok.
  assert (os_path_join UPLOAD_FOLDER (filename file) = filename file) as Hjoin.
  { unfold os_path_join. change (String sep "") with "/". by rewrite Habs. }
  split; [done|].
  assert (filename file ≠ "") as Hname.
  { intros Hempty. by rewrite Hempty in Habs. }
  pose proof (convert_upload_kept codec request file w Hget Hname) as Hkept.
  cbv zeta in Hkept. rewrite Hjoin in Hkept. by apply Hkept.
Qed.

(** X9.  Every file the handler sends is offered for download under a name
    that ends in [.jpg], converted or not. *)
Theorem download_name_ends_in_jpg request w resp w' :
  convert codec request w = (Return resp, w') →
  status resp = 200 →
  ∃ name, attachment resp = Some name ∧ Py.endswith name ".jpg" = true.
Proof.
  intros Hrun Hstatus.
  destruct (convert_return_shape codec request w resp w' Hrun)
    as [(file & _ & _ & _ & ->)|(file & data & _ & _ & _ & ->)]; [done|].
  eexists. split; [done|]. apply output_basename_ends_in_jpg.
Qed.

(** X10.  The handler answers with a status other than 200 only from the
    guard of line 13: the field is there, its filename is empty, the answer
    is the 400 error body and the world is unchanged. *)
Theorem only_empty_filename_is_answered_400 request w resp w' :
  convert codec request w = (Return resp, w') →
  status resp ≠ 200 →
  ∃ file, MultiDict_get (request_files request) "file" = Some file ∧
          filename file = "" ∧ w' = w ∧
          resp = mkResponse 400 (JsonBody [("error", "No file uploaded")]) None.
Proof.
  intros Hrun Hstatus.
  destruct (convert_return_shape codec request w resp w' Hrun)
    as [Hguard|(file & data & _ & _ & _ & ->)]; [done|].
  by destruct Hstatus.
Qed.

(** X11.  Creating the upload directory at load time is idempotent and
    touches no file: a second run gives the outcome of the first and the
    same world.  It raises only when a regular file is named [uploads], and
    then changes nothing. *)
Theorem startup_idempotent w :
  let run := startup w in
  startup (snd run) = run ∧
  files (snd run) = files w ∧
  match fst run with
  | Return _ => dirs (snd run) = {[UPLOAD_FOLDER]} ∪ dirs w
  | Raise e =>
      e = FileExistsError UPLOAD_FOLDER ∧ is_Some (files w !! UPLOAD_FOLDER) ∧ snd run = w
  end.
Proof.
  unfold startup, os_makedirs. cbv zeta.
  destruct (bool_decide (is_Some (files w !! UPLOAD_FOLDER))) eqn:Hfile; simpl.
  - rewrite Hfile. by apply bool_decide_eq_true in Hfile.
  - rewrite Hfile. split; [|done].
    unfold set_dirs. simpl. do 2 f_equal.
    apply set_eq. intros x. rewrite !elem_of_union. tauto.
Qed.

(** X12.  Once the module has loaded, an upload under a plain name (one
    path component, not [.] or [..]) that the filesystem takes (no NUL, at
    most 255 bytes) and that no directory bears is always saved: after the
    request its bytes are at [uploads/<name>]. *)
Theorem plain_upload_saved_after_startup (name : string) (data : bytes) w w' :
  startup w = (Return tt, w') →
  plain_name name →
  name_fits name →
  "uploads/" +:+ name ∉ dirs w →
  files (snd (convert codec (mkRequest [("file", mkFileStorage name data)]) w'))
    !! ("uploads/" +:+ name) = Some data.
Proof.
  intros Hstart Hplain Hfits Hdir.
  assert (dirs w' = {[UPLOAD_FOLDER]} ∪ dirs w) as Hdirs.
  { revert Hstart. unfold startup, os_makedirs. case_bool_decide; [done|].
    by intros [= <-]. }
  assert (os_path_join UPLOAD_FOLDER name = "uploads/" +:+ name) as Hjoin.
  { apply join_uploads_plain, Hplain. }
  set (request := mkRequest _).
  assert (MultiDict_get (request_files request) "file" = Some (mkFileStorage name data))
    as Hget by done.
  assert (filename (mkFileStorage name data) ≠ "") as Hname.
  { simpl. destruct Hplain as [_ Hne]. intros ->. apply Hne. constructor. }
  pose proof (convert_upload_kept codec request _ w' Hget Hname) as Hkept.
  cbv zeta in Hkept. simpl in Hkept. rewrite Hjoin in Hkept. apply Hkept.
  rewrite <- Hjoin. apply plain_name_can_open; [|done|done|].
  - rewrite Hdirs. apply elem_of_union_l. by apply elem_of_singleton.
  - rewrite Hdirs, Hjoin. intros [Heq%elem_of_singleton|?]%elem_of_union; [|done].
    discriminate Heq.
Qed.

(** X13.  Serving any request a second time, on the world the first run
    left, gives the same answer or exception and leaves the same files and
    directories. *)
Theorem any_request_replayed request w :
  let run1 := convert codec request w in
  let run2 := convert codec request (snd run1) in
  fst run2 = fst run1 ∧
  files (snd run2) = files (snd run1) ∧
  dirs (snd run2) = dirs (snd run1).
Proof. apply convert_replay. Qed.

(** X14.  The answer to a converted upload does not depend on the disk it
    arrives on: for a PNG name, two runs on any two worlds that both return
    give the same response and leave the same bytes at the output path. *)
Theorem converted_answer_ignores_the_disk request file w v resp_w resp_v :
  MultiDict_get (request_files request) "file" = Some file →
  Py.lower (snd (os_path_splitext (filename file))) = ".png" →
  fst (convert codec request w) = Return resp_w →
  fst (convert codec request v) = Return resp_v →
  let output_path :=
    fst (os_path_splitext (os_path_join UPLOAD_FOLDER (filename file))) +:+ ".jpg" in
  resp_w = resp_v ∧
  files (snd (convert codec request w)) !! output_path =
    files (snd (convert codec request v)) !! output_path.
Proof. apply png_upload_deterministic. Qed.

(** X15.  The extension line 26 finds in the joined path is the extension
    of the client filename, and the root is the upload directory joined
    with the filename's root: the directory part adds or hides none. *)
Theorem joined_path_has_the_filename_extension (name : string) :
  os_path_splitext (os_path_join UPLOAD_FOLDER name) =
    (os_path_join UPLOAD_FOLDER (fst (os_path_splitext name)),
     snd (os_path_splitext name)).
Proof. apply splitext_join_uploads. Qed.


(** X17.  A decoded image whose mode is not RGBA goes to the JPEG save as
    it was decoded, with no convert call; when [convert_to_jpeg] returns,
    the mode was one the JPEG writer accepts and the output file is the
    encoding of that image. *)
Theorem non_rgba_png_encoded_as_decoded filepath data img w :
  Py.lower (snd (os_path_splitext filepath)) = ".png" →
  files w !! filepath = Some data →
  decode codec data = Some img →
  mode img ≠ "RGBA" →
  let output_path := fst (os_path_splitext filepath) +:+ ".jpg" in
  let run := convert_to_jpeg codec filepath w in
  pil_calls (snd run) =
    pil_calls w ++ [Image_open_call filepath;
                    Image_save_call output_path (mode img) "JPEG"] ∧
  (fst run = Return output_path →
   mode img ∈ JPEG_RAWMODE ∧
   files (snd run) !! output_path = encode_jpeg codec img).
Proof.
  intros Hext Hfile Hdec Hmode output_path run. subst run.
  rewrite (convert_to_jpeg_png _ _ _ _ Hext Hfile), Hdec. cbv zeta.
  fold output_path.
  assert (String.eqb (mode img) "RGBA" = false) as Hneq by by apply String.eqb_neq.
  unfold png_calls, encoder_input. rewrite Hneq. simpl.
  destruct (can_open_wb w output_path); [|done].
  unfold jpeg_save_handler. case_bool_decide as Hraw; [|done].
  destruct (encode_jpeg codec img) as [jpeg|]; [|done].
  simpl. split; [done|]. intros _. split; [done|]. apply lookup_insert_eq.
Qed.

(** X18.  For a PNG input whose decoded mode is exactly RGBA,
    [convert_to_jpeg] converts the image to RGB before the JPEG save: the
    calls are open, convert, save of an RGB image, the image handed to the
    encoder has no alpha band and three bands per pixel at most, and a
    file written at the output path is the encoding of that image. *)
Theorem rgba_png_flattened filepath data img w :
  Py.lower (snd (os_path_splitext filepath)) = ".png" →
  files w !! filepath = Some data →
  decode codec data = Some img →
  mode img = "RGBA" →
  let output_path := fst (os_path_splitext filepath) +:+ ".jpg" in
  let run := convert_to_jpeg codec filepath w in
  pil_calls (snd run) =
    pil_calls w ++ [Image_open_call filepath; Image_convert_call "RGBA" "RGB";
                    Image_save_call output_path "RGB" "JPEG"] ∧
  has_alpha_band (mode (rgba2rgb img)) = false ∧
  Forall (λ px, (length px <= 3)%nat) (pixels (rgba2rgb img)) ∧
  (fst run = Return output_path →
   files (snd run) !! output_path = encode_jpeg codec (rgba2rgb img)).
Proof.
  intros Hext Hfile Hdec Hmode output_path run. subst run.
  rewrite (convert_to_jpeg_png _ _ _ _ Hext Hfile), Hdec. cbv zeta.
  fold output_path.
  assert (encoder_input img = rgba2rgb img) as -> by (unfold encoder_input; by rewrite Hmode).
  unfold png_calls, encoder_input. rewrite Hmode. simpl.
  split; [|split; [done|split]].
  - destruct (can_open_wb w output_path); [|done].
    by destruct (jpeg_save_handler _ _).
  - apply Forall_fmap, Forall_true. intros px. simpl. rewrite length_take. lia.
  - destruct (can_open_wb w output_path); [|done].
    unfold jpeg_save_handler. simpl.
    destruct (encode_jpeg codec (rgba2rgb img)) as [jpeg|]; [|done].
    intros _. simpl. by rewrite lookup_insert_eq.
Qed.

End Properties.

(** * The further properties on concrete requests *)

(** Decides a closed membership or inequality by evaluation. *)
Ltac by_evaluation := apply (bool_decide_unpack _); vm_compute; exact I.

Lemma png_name_any_case_converted_witness :
  Py.lower ".PNG" = ".png" ∧
  fst (convert Sample.codec (Sample.upload "A.PNG" Sample.rgb_png) Sample.started) =
    Return (mkResponse 200 (FileBody Sample.soi_eoi) (Some "A.jpg")).
Proof.
  split; [reflexivity|].
  destruct (png_name_any_case_converted Sample.codec "A" ".PNG" Sample.rgb_png
              (mkImage "RGB" (1%nat, 1%nat) []) Sample.soi_eoi Sample.started
              eq_refl eq_refl eq_refl eq_refl ltac:(by_evaluation) eq_refl
              eq_refl eq_refl)
    as [Hans _].
  exact Hans.
Defined.


Lemma upload_kept_on_failure_witness :
  fst (convert Sample.codec (Sample.upload "a.png" Sample.la_png) Sample.started) =
    Raise (OSError "cannot write mode LA as JPEG") ∧
  files (snd (convert Sample.codec (Sample.upload "a.png" Sample.la_png) Sample.started))
    !! "uploads/a.png" = Some Sample.la_png.
Proof.
  split; [vm_compute; reflexivity|].
  apply (upload_kept_on_failure Sample.codec (Sample.upload "a.png" Sample.la_png)
           (mkFileStorage "a.png" Sample.la_png) Sample.started eq_refl).
  - discriminate.
  - vm_compute. reflexivity.
Defined.

Lemma no_request_removes_a_file_witness :
  is_Some (files (snd (convert Sample.codec (Sample.upload "a.png" Sample.p_png)
                         (Sample.with_file "uploads/a.jpg" Sample.soi_eoi Sample.started)))
             !! "uploads/a.jpg").
Proof.
  apply (no_request_removes_a_file Sample.codec (Sample.upload "a.png" Sample.p_png)
           (Sample.with_file "uploads/a.jpg" Sample.soi_eoi Sample.started)
           "uploads/a.jpg").
  by_evaluation.
Defined.

Lemma undecodable_png_raises_witness :
  (identify Sample.codec Sample.soi_eoi =
     inl (UnidentifiedImageError "cannot identify image file") ∧
   convert Sample.codec (Sample.upload "a.png" Sample.soi_eoi) Sample.started =
     (Raise (UnidentifiedImageError "cannot identify image file"),
      add_call (Image_open_call "uploads/a.png")
        (Sample.with_file "uploads/a.png" Sample.soi_eoi Sample.started))) ∧
  (identify Sample.codec (take 40 Sample.rgb_png) = inr ("RGB", (1%nat, 1%nat)) ∧
   load Sample.codec (take 40 Sample.rgb_png) = inl (OSError "image file is truncated") ∧
   convert Sample.codec (Sample.upload "a.png" (take 40 Sample.rgb_png)) Sample.started =
     (Raise (OSError "image file is truncated"),
      log_calls [Image_open_call "uploads/a.png";
                 Image_save_call "uploads/a.jpg" "RGB" "JPEG"]
        (Sample.with_file "uploads/a.png" (take 40 Sample.rgb_png) Sample.started))).
Proof.
  split.
  - split; [reflexivity|].
    destruct (undecodable_png_raises Sample.codec (Sample.upload "a.png" Sample.soi_eoi)
                (mkFileStorage "a.png" Sample.soi_eoi) Sample.started
                eq_refl eq_refl eq_refl) as [Hopen _].
    exact (Hopen _ eq_refl).
  - split; [reflexivity|]. split; [reflexivity|].
    destruct (undecodable_png_raises Sample.codec
                (Sample.upload "a.png" (take 40 Sample.rgb_png))
                (mkFileStorage "a.png" (take 40 Sample.rgb_png)) Sample.started
                eq_refl eq_refl eq_refl) as [_ Hload].
    exact (Hload "RGB" (1%nat, 1%nat) (OSError "image file is truncated") eq_refl eq_refl).
Defined.


Lemma absolute_filename_escapes_upload_folder_witness :
  files (snd (convert Sample.codec (Sample.upload "/tmp/x.png" Sample.rgb_png)
                (Sample.with_dir "/tmp" Sample.started)))
    !! "/tmp/x.png" = Some Sample.rgb_png.
Proof.
  destruct (absolute_filename_escapes_upload_folder Sample.codec
              (Sample.upload "/tmp/x.png" Sample.rgb_png)
              (mkFileStorage "/tmp/x.png" Sample.rgb_png)
              (Sample.with_dir "/tmp" Sample.started)
              eq_refl eq_refl eq_refl) as [_ Hfile].
  exact Hfile.
Defined.

Lemma download_name_ends_in_jpg_witness :
  ∃ name,
    attachment (mkResponse 200 (FileBody Sample.soi_eoi) (Some "a.jpg")) = Some name ∧
    Py.endswith name ".jpg" = true.
Proof.
  apply (download_name_ends_in_jpg Sample.codec
           (Sample.upload "a.jpg" Sample.soi_eoi) Sample.started
           (mkResponse 200 (FileBody Sample.soi_eoi) (Some "a.jpg"))
           (snd (convert Sample.codec (Sample.upload "a.jpg" Sample.soi_eoi)
                   Sample.started))).
  - vm_compute. reflexivity.
  - reflexivity.
Defined.

Lemma only_empty_filename_is_answered_400_witness :
  ∃ file,
    MultiDict_get (request_files (Sample.upload "" Sample.rgb_png)) "file" = Some file ∧
    filename file = "" ∧ Sample.started = Sample.started ∧
    mkResponse 400 (JsonBody [("error", "No file uploaded")]) None =
      mkResponse 400 (JsonBody [("error", "No file uploaded")]) None.
Proof.
  apply (only_empty_filename_is_answered_400 Sample.codec
           (Sample.upload "" Sample.rgb_png) Sample.started
           (mkResponse 400 (JsonBody [("error", "No file uploaded")]) None)
           Sample.started).
  - reflexivity.
  - discriminate.
Defined.

Lemma plain_upload_saved_after_startup_witness :
  files (snd (convert Sample.codec (Sample.upload "a.gif" Sample.soi_eoi) Sample.started))
    !! "uploads/a.gif" = Some Sample.soi_eoi.
Proof.
  apply (plain_upload_saved_after_startup Sample.codec "a.gif" Sample.soi_eoi
           Sample.blank Sample.started).
  - reflexivity.
  - split; [reflexivity | by_evaluation].
  - split; [reflexivity | by vm_compute].
  - by_evaluation.
Defined.

Lemma converted_answer_ignores_the_disk_witness :
  fst (convert Sample.codec (Sample.upload "a.png" Sample.rgba_png) Sample.started) =
  fst (convert Sample.codec (Sample.upload "a.png" Sample.rgba_png)
         (Sample.with_file "uploads/a.jpg" Sample.rgb_png Sample.started)).
Proof.
  destruct (converted_answer_ignores_the_disk Sample.codec
              (Sample.upload "a.png" Sample.rgba_png)
              (mkFileStorage "a.png" Sample.rgba_png)
              Sample.started
              (Sample.with_file "uploads/a.jpg" Sample.rgb_png Sample.started)
              (mkResponse 200 (FileBody Sample.soi_eoi) (Some "a.jpg"))
              (mkResponse 200 (FileBody Sample.soi_eoi) (Some "a.jpg"))
              eq_refl eq_refl) as [_ _].
  - vm_compute. reflexivity.
  - vm_compute. reflexivity.
  - vm_compute. reflexivity.
Defined.

Lemma non_rgba_png_encoded_as_decoded_witness :
  pil_calls (snd (convert_to_jpeg Sample.codec "uploads/a.png"
                    (Sample.with_file "uploads/a.png" Sample.rgb_png Sample.started))) =
    [Image_open_call "uploads/a.png"; Image_save_call "uploads/a.jpg" "RGB" "JPEG"].
Proof.
  destruct (non_rgba_png_encoded_as_decoded Sample.codec "uploads/a.png" Sample.rgb_png
              (mkImage "RGB" (1%nat, 1%nat) [])
              (Sample.with_file "uploads/a.png" Sample.rgb_png Sample.started)
              eq_refl eq_refl eq_refl ltac:(discriminate)) as [Hcalls _].
  exact Hcalls.
Defined.

Lemma rgba_png_flattened_witness :
  mode <$> decode Sample.codec Sample.rgba_png = Some "RGBA" ∧
  pil_calls (snd (convert_to_jpeg Sample.codec "uploads/a.png"
                    (Sample.with_file "uploads/a.png" Sample.rgba_png Sample.started))) =
    [Image_open_call "uploads/a.png"; Image_convert_call "RGBA" "RGB";
     Image_save_call "uploads/a.jpg" "RGB" "JPEG"].
Proof.
  split; [reflexivity|].
  destruct (rgba_png_flattened Sample.codec "uploads/a.png" Sample.rgba_png
              (mkImage "RGBA" (1%nat, 1%nat) [])
              (Sample.with_file "uploads/a.png" Sample.rgba_png Sample.started)
              eq_refl eq_refl eq_refl eq_refl) as [Hcalls _].
  exact Hcalls.
Defined.
